(** * Documentation-Generator: the response parser and its callers

    A shallow embedding of [src/main.py]: the line-oriented scan
    [_parse_documentation], the two model-facing operations
    [generate_documentation] and [generate_docstring], the input validator
    [validate_code_input] and the two drivers that call them.

    Python values are embedded as follows.
    - A [str] is a list of Unicode code points ([N]); [lit] reads a literal,
      with the two characters backslash-n standing for U+000A as in the
      Python source.
    - A [dict] with string keys is an association list in insertion order.
    - A dict value is a [str] or a [list] of [str]; the method [append]
      exists on the second only.
    - A raised exception is the [Raise] branch of [result]. *)

From Stdlib Require Import List String Ascii NArith Bool Lia.
Import ListNotations.

(** ** Python strings *)

Module PyStr.

Definition char := N.
Definition str := list char.

Definition NL : char := 10%N.
Definition SP : char := 32%N.
Definition DASH : char := 45%N.
Definition BACKSLASH : char := 92%N.
Definition LOWER_N : char := 110%N.

(** Reads a literal; backslash-n is the line feed. *)
Fixpoint unescape (s : str) : str :=
  match s with
  | [] => []
  | c :: rest =>
      match rest with
      | d :: rest' =>
          if (N.eqb c BACKSLASH && N.eqb d LOWER_N)%bool
          then NL :: unescape rest'
          else c :: unescape rest
      | [] => [c]
      end
  end.

(** The code points of an ASCII text, as they are. *)
Definition of_string (s : string) : str :=
  map N_of_ascii (list_ascii_of_string s).

Definition lit (s : string) : str := unescape (of_string s).

(** [str.isspace] on one character, the set [str.strip()] removes. *)
Definition isspace (c : char) : bool :=
  ((9 <=? c) && (c <=? 13)
   || (28 <=? c) && (c <=? 32)
   || (c =? 133) || (c =? 160) || (c =? 5760)
   || (8192 <=? c) && (c <=? 8202)
   || (c =? 8232) || (c =? 8233) || (c =? 8239) || (c =? 8287)
   || (c =? 12288))%N%bool.

Fixpoint lstrip (s : str) : str :=
  match s with
  | [] => []
  | c :: s' => if isspace c then lstrip s' else s
  end.

Definition rstrip (s : str) : str := rev (lstrip (rev s)).

(** [s.strip()] *)
Definition strip (s : str) : str := rstrip (lstrip s).

(** Truth value of a string: non-empty. *)
Definition truthy (s : str) : bool :=
  match s with [] => false | _ :: _ => true end.

(** [s.startswith(p)] *)
Fixpoint startswith (p s : str) : bool :=
  match p, s with
  | [], _ => true
  | _ :: _, [] => false
  | a :: p', b :: s' => (N.eqb a b && startswith p' s')%bool
  end.

(** [s.endswith(p)] *)
Definition endswith (p s : str) : bool := startswith (rev p) (rev s).

(** [s[1:]] *)
Definition slice_from_1 (s : str) : str := tl s.

(** [s.split(sep)] for a one-character separator: never the empty list. *)
Fixpoint split (sep : char) (s : str) : list str :=
  match s with
  | [] => [[]]
  | c :: s' =>
      if N.eqb c sep then [] :: split sep s'
      else match split sep s' with
           | [] => [[c]]
           | l :: ls => (c :: l) :: ls
           end
  end.

(** [sep.join(parts)] *)
Fixpoint join (sep : str) (parts : list str) : str :=
  match parts with
  | [] => []
  | [p] => p
  | p :: rest => p ++ sep ++ join sep rest
  end.

End PyStr.
Import PyStr.

(** ** Python values, dictionaries and exceptions *)

Inductive value :=
| VStr (s : str)
| VList (l : list str).

Definition dict := list (string * value).

Fixpoint dict_get (d : dict) (k : string) : option value :=
  match d with
  | [] => None
  | (k', v) :: d' => if String.eqb k' k then Some v else dict_get d' k
  end.

(** [k in d] *)
Definition dict_in (k : string) (d : dict) : bool :=
  match dict_get d k with Some _ => true | None => false end.

(** [d[k] = v]: an existing key keeps its position, a new one goes last. *)
Fixpoint dict_set (d : dict) (k : string) (v : value) : dict :=
  match d with
  | [] => [(k, v)]
  | (k', v') :: d' =>
      if String.eqb k' k then (k', v) :: d' else (k', v') :: dict_set d' k v
  end.

Definition dict_keys (d : dict) : list string := map fst d.

Inductive exn :=
| AttributeError (msg : str)
| KeyError (key : string)
| ValueError (msg : str)
| OtherException (msg : str).

(** [repr(k)] for a key whose characters are code points below 256: the
    quote is the double one when the key holds a single quote and no double
    one; the quote and the backslash are escaped, tab, line feed and carriage
    return have their letters, and a character that is not printable is
    written in hexadecimal. *)
Definition hex_digit (n : N) : char :=
  if (n <? 10)%N then (48 + n)%N else (87 + n)%N.

Definition printable_latin1 (c : char) : bool :=
  ((32 <=? c) && (c <? 127)
   || (161 <=? c) && (c <=? 255) && negb (c =? 173))%N%bool.

Definition repr_char (quote c : char) : str :=
  if ((c =? quote) || (c =? 92))%N%bool then [92; c]%N
  else if (c =? 9)%N then [92; 116]%N
  else if (c =? 10)%N then [92; 110]%N
  else if (c =? 13)%N then [92; 114]%N
  else if printable_latin1 c then [c]
  else [92; 120; hex_digit (c / 16); hex_digit (c mod 16)]%N.

Definition py_repr (k : string) : str :=
  let s := of_string k in
  let quote :=
    if (existsb (N.eqb 39) s && negb (existsb (N.eqb 34) s))%bool
    then 34%N else 39%N in
  quote :: List.concat (map (repr_char quote) s) ++ [quote].

(** [str(e)]; for a [KeyError] it is the [repr] of the key. *)
Definition str_of_exn (e : exn) : str :=
  match e with
  | AttributeError m => m
  | KeyError k => py_repr k
  | ValueError m => m
  | OtherException m => m
  end.

Inductive result (A : Type) :=
| Ok (a : A)
| Raise (e : exn).
Arguments Ok {A} a.
Arguments Raise {A} e.

Definition bind {A B} (r : result A) (k : A -> result B) : result B :=
  match r with
  | Ok a => k a
  | Raise e => Raise e
  end.

Notation "x <- r ;; k" := (bind r (fun x => k))
  (at level 61, r at next level, right associativity).

(** [d[k].append(x)]: only a list has the method. *)
Definition dict_append (d : dict) (k : string) (x : str) : result dict :=
  match dict_get d k with
  | None => Raise (KeyError k)
  | Some (VList l) => Ok (dict_set d k (VList (l ++ [x])))
  | Some (VStr _) =>
      Raise (AttributeError (lit "'str' object has no attribute 'append'"))
  end.

(** ** The response parser: [CodeDocumentationGenerator._parse_documentation] *)

Record pstate := mkState {
  sections : dict;
  current_section : string;
  improvement_point : str
}.

Definition initial_sections : dict :=
  [ ("overview", VStr []);
    ("functions", VStr []);
    ("parameters", VStr []);
    ("examples", VStr []);
    ("improvements", VStr []) ]%string.

Definition initial_state : pstate :=
  mkState initial_sections "overview" [].

Definition set_section (st : pstate) (name : string) : pstate :=
  mkState (sections st) name (improvement_point st).

(** The body of the [for] loop, one line of the reply. Every [continue] of the
    source is a branch that returns the next state. *)
Definition parse_line (st : pstate) (raw_line : str) : result pstate :=
  let line := strip raw_line in
  if negb (truthy line) then Ok st
  else if startswith (lit "1. Brief Overview:") line then
    Ok (set_section st "overview")
  else if startswith (lit "2. Detailed Function Documentation:") line then
    Ok (set_section st "functions")
  else if startswith (lit "3. Parameters and Return Values:") line then
    Ok (set_section st "parameters")
  else if startswith (lit "4. Usage Examples:") line then
    Ok (set_section st "examples")
  else if startswith (lit "5. Any potential improvements") line
          || startswith (lit "Improvements:") line then
    Ok (set_section st "improvements")
  else if startswith (lit "-") line
          && String.eqb (current_section st) "improvements" then
    secs <- (if truthy (improvement_point st)
             then dict_append (sections st) "improvements"
                              (strip (improvement_point st))
             else Ok (sections st)) ;;
    Ok (mkState secs (current_section st) (strip (slice_from_1 line)))
  else if String.eqb (current_section st) "improvements" then
    if truthy (improvement_point st)
    then Ok (mkState (sections st) (current_section st)
                     (improvement_point st ++ lit " " ++ line))
    else Ok st
  else if dict_in (current_section st) (sections st) then
    match dict_get (sections st) (current_section st) with
    | Some (VStr acc) =>
        let acc' :=
          if truthy acc && negb (endswith (lit "\n") acc)
          then acc ++ lit "\n" else acc in
        Ok (mkState (dict_set (sections st) (current_section st)
                              (VStr (acc' ++ line)))
                    (current_section st) (improvement_point st))
    | _ => Ok st
    end
  else Ok st.

(** The [for] loop over the lines. *)
Fixpoint parse_lines (st : pstate) (lines : list str) : result pstate :=
  match lines with
  | [] => Ok st
  | l :: rest => st' <- parse_line st l ;; parse_lines st' rest
  end.

Definition _parse_documentation (raw_response : str) : result dict :=
  st <- parse_lines initial_state (split NL raw_response) ;;
  secs <- (if truthy (improvement_point st)
           then dict_append (sections st) "improvements"
                            (strip (improvement_point st))
           else Ok (sections st)) ;;
  Ok secs.

(** ** The model client and the operations that call it *)

(** One chat-completion request: the model name and the two messages. The
    sampling temperature is the constant 0.7 in both callers and is left
    out. *)
Record request := mkRequest {
  model : string;
  system_content : str;
  user_content : str
}.

(** What [openai.chat.completions.create] does: it returns a response whose
    [choices[0].message.content] is a string or [None], or it raises an
    instance of [Exception], the class both callers catch. *)
Inductive outcome :=
| Completion (content : option str)
| Fails (e : exn).

(** Code that calls the model: the requests sent, in order, and the value. *)
Definition io (A : Type) : Type := list request * A.

Definition ret {A} (a : A) : io A := ([], a).

Definition io_bind {A B} (m : io A) (k : A -> io B) : io B :=
  let (log1, a) := m in
  let (log2, b) := k a in
  (log1 ++ log2, b).

Notation "x <~ m ;; k" := (io_bind m (fun x => k))
  (at level 61, m at next level, right associativity).

Definition calls {A} (m : io A) : list request := fst m.
Definition value_of {A} (m : io A) : A := snd m.

Fixpoint str_eqb (a b : str) : bool :=
  match a, b with
  | [], [] => true
  | x :: a', y :: b' => (N.eqb x y && str_eqb a' b')%bool
  | _, _ => false
  end.

(** [validate_code_input]: the pair (is_valid, error message). *)
Definition validate_code_input (code : str) : bool * str :=
  if negb (truthy (strip code))
  then (false, lit "Code input cannot be empty")
  else (true, []).

(** [load_config], from the value of the environment variable. *)
Definition load_config (env_api_key : option str) : result str :=
  match env_api_key with
  | Some k =>
      if truthy k then Ok k
      else Raise (ValueError
                    (lit "OPENAI_API_KEY not found in environment variables"))
  | None =>
      Raise (ValueError
               (lit "OPENAI_API_KEY not found in environment variables"))
  end.

(** [load_code_from_file], from what opening and reading the file gives. *)
Definition load_code_from_file (read : result str) : result str :=
  match read with
  | Ok text => Ok text
  | Raise e => Raise (ValueError (lit "Error reading file: " ++ str_of_exn e))
  end.

Definition error_document (e : exn) : dict :=
  [ ("error"%string,
     VStr (lit "Failed to generate documentation: " ++ str_of_exn e)) ].

(** [styles.get(style, 'using standard docstrings')] *)
Definition styles_get (style : str) : str :=
  if str_eqb style (lit "google") then lit "using Google style docstrings"
  else if str_eqb style (lit "numpy") then lit "using NumPy style docstrings"
  else if str_eqb style (lit "sphinx") then lit "using Sphinx style docstrings"
  else lit "using standard docstrings".

(** [docs[k].strip()] as [save_documentation] evaluates it. *)
Definition field_strip (docs : dict) (k : string) : result str :=
  match dict_get docs k with
  | None => Raise (KeyError k)
  | Some (VStr s) => Ok (strip s)
  | Some (VList _) =>
      Raise (AttributeError (lit "'list' object has no attribute 'strip'"))
  end.

(** The text [save_documentation] writes in the [txt] format. Creating the
    directory, opening the file and encoding every text written are taken to
    succeed; [save_documentation_write] has the writes one by one, each of
    which can fail on a character the encoding of the file lacks. *)
Definition save_documentation_txt (docs : dict) (docstring code : str)
  : result str :=
  o <- field_strip docs "overview" ;;
  f <- field_strip docs "functions" ;;
  p <- field_strip docs "parameters" ;;
  e <- field_strip docs "examples" ;;
  i <- match dict_get docs "improvements" with
       | None => Raise (KeyError "improvements")
       | Some (VList items) =>
           Ok (List.concat (map (fun it => lit "- " ++ it ++ lit "\n") items))
       | Some (VStr s) => Ok (strip s)
       end ;;
  Ok (lit "=== Original Code ===\n\n" ++ code
      ++ lit "\n\n=== Documentation ===\n\n"
      ++ lit "Overview:\n" ++ o
      ++ lit "\n\nFunctions:\n" ++ f
      ++ lit "\n\nParameters:\n" ++ p
      ++ lit "\n\nExamples:\n" ++ e
      ++ lit "\n\nImprovements:\n" ++ i
      ++ lit "\n\n=== Generated Docstring ===\n\n" ++ docstring).

(** The request [generate_documentation] sends. *)
Definition documentation_request (code language : str) : request :=
  let prompt :=
    lit "Analyze this " ++ language
    ++ lit " code and provide the following:\n        1. A brief overview of what the code does\n        2. Detailed function documentation\n        3. Parameters and return values\n        4. Usage examples\n        5. Any potential improvements or considerations\n        \n        Code to analyze:\n        "
    ++ code in
  mkRequest "gpt-4"
    (lit "You are an expert programmer who specializes in writing clear, comprehensive code documentation.")
    prompt.

(** The request [generate_docstring] sends. *)
Definition docstring_request (code style : str) : request :=
  let prompt :=
    lit "Write a comprehensive docstring for this function "
    ++ styles_get style ++ lit ":\n        \n        " ++ code in
  mkRequest "gpt-4"
    (lit "You are an expert at writing clear, comprehensive function docstrings.")
    prompt.

Section Client.

(** The external text-completion service. *)
Variable create : request -> outcome.

Definition call (r : request) : io outcome := ([r], create r).

(** [CodeDocumentationGenerator.generate_documentation]: the [try] block
    covers the model call and the parse, so an exception of either becomes
    the error document. *)
Definition generate_documentation (code language : str) : io dict :=
  response <~ call (documentation_request code language) ;;
  ret (match response with
       | Fails e => error_document e
       | Completion None =>
           error_document
             (AttributeError
                (lit "'NoneType' object has no attribute 'split'"))
       | Completion (Some text) =>
           match _parse_documentation text with
           | Ok documentation => documentation
           | Raise e => error_document e
           end
       end).

(** [CodeDocumentationGenerator.generate_docstring] *)
Definition generate_docstring (code style : str) : io str :=
  response <~ call (docstring_request code style) ;;
  ret (match response with
       | Fails e => lit "Failed to generate docstring: " ++ str_of_exn e
       | Completion None =>
           lit "Failed to generate docstring: "
           ++ lit "'NoneType' object has no attribute 'strip'"
       | Completion (Some text) => strip text
       end).

(** The non-interactive driver, the branch of [__main__] taken with
    [--file <path>]: the exit status, from the value of the environment
    variable and from what reading the file gives. *)
Definition main_file (env_api_key : option str) (read : result str)
  (language : str) : io N :=
  match load_config env_api_key with
  | Raise _ => ret 1%N
  | Ok _ =>
      match load_code_from_file read with
      | Raise _ => ret 1%N
      | Ok code =>
          docs <~ generate_documentation code language ;;
          docstring <~ generate_docstring code (lit "google") ;;
          ret (match save_documentation_txt docs docstring code with
               | Ok _ => 0%N
               | Raise _ => 1%N
               end)
      end
  end.

(** One pass of the interactive menu for the choices 1, 2, 4 and 5, from the
    point where the code text has been obtained. [language] and [style] are
    the answers that passed [validate_language] and [validate_style]; the
    terminal output, the history file and the saved file are not part of the
    value. The result tells whether the input was accepted. *)
Definition menu_generate (choice code_to_document language style : str)
  : io bool :=
  let (is_valid, error_msg) := validate_code_input code_to_document in
  if negb is_valid then ret false
  else if str_eqb choice (lit "1") || str_eqb choice (lit "4") then
    docs <~ generate_documentation code_to_document language ;;
    docstring <~ generate_docstring code_to_document (lit "google") ;;
    ret true
  else if str_eqb choice (lit "2") then
    docstring <~ generate_docstring code_to_document style ;;
    ret true
  else ret true.

End Client.

(** ** The shapes of a returned document *)

Definition section_keys : list string :=
  [ "overview"; "functions"; "parameters"; "examples"; "improvements" ]%string.

(** The test the callers use: ["error" in docs]. *)
Definition is_error_document (d : dict) : bool := dict_in "error" d.

Definition is_valid_document (d : dict) : Prop := dict_keys d = section_keys.

(** ** The recognised header prefixes *)

Definition numbered_headers : list (str * string) :=
  [ (lit "1. Brief Overview:", "overview"%string);
    (lit "2. Detailed Function Documentation:", "functions"%string);
    (lit "3. Parameters and Return Values:", "parameters"%string);
    (lit "4. Usage Examples:", "examples"%string);
    (lit "5. Any potential improvements", "improvements"%string) ].

Definition header_prefixes : list (str * string) :=
  numbered_headers ++ [ (lit "Improvements:", "improvements"%string) ].

(** Whether a trimmed line is taken by one of the header branches. *)
Definition is_header (line : str) : bool :=
  existsb (fun h => startswith (fst h) line) header_prefixes.

(** Whether a trimmed line, read in section [cs], is taken by the bullet
    branch. *)
Definition is_bullet (cs : string) (line : str) : bool :=
  truthy line && negb (is_header line)
  && startswith (lit "-") line && String.eqb cs "improvements".

(** The bullet rendering of the persistence code and of the terminal
    output: one line ["- " + item] per item. *)
Definition render_bullets (items : list str) : str :=
  join (lit "\n") (map (fun item => lit "- " ++ item) items).

(** The part of the loop body below the header branches, on a trimmed,
    non-empty line that is no header: bullet, continuation, accumulation. *)
Definition line_body (st : pstate) (line : str) : result pstate :=
  if startswith (lit "-") line
     && String.eqb (current_section st) "improvements" then
    secs <- (if truthy (improvement_point st)
             then dict_append (sections st) "improvements"
                              (strip (improvement_point st))
             else Ok (sections st)) ;;
    Ok (mkState secs (current_section st) (strip (slice_from_1 line)))
  else if String.eqb (current_section st) "improvements" then
    if truthy (improvement_point st)
    then Ok (mkState (sections st) (current_section st)
                     (improvement_point st ++ lit " " ++ line))
    else Ok st
  else if dict_in (current_section st) (sections st) then
    match dict_get (sections st) (current_section st) with
    | Some (VStr acc) =>
        let acc' :=
          if truthy acc && negb (endswith (lit "\n") acc)
          then acc ++ lit "\n" else acc in
        Ok (mkState (dict_set (sections st) (current_section st)
                              (VStr (acc' ++ line)))
                    (current_section st) (improvement_point st))
    | _ => Ok st
    end
  else Ok st.

(** The scan state while everything read so far went to [overview]. *)
Definition overview_state (acc : str) : pstate :=
  mkState (dict_set initial_sections "overview" (VStr acc)) "overview" [].

(** Whether the scan of [lines] from [st] takes the bullet branch. *)
Fixpoint seen_bullet (st : pstate) (lines : list str) : bool :=
  match lines with
  | [] => false
  | l :: rest =>
      is_bullet (current_section st) (strip l)
      || match parse_line st l with
         | Ok st' => seen_bullet st' rest
         | Raise _ => false
         end
  end.

(** The accumulation of one more line into a free-text section, as the
    last branch of the loop body does it once the accumulator is known not
    to end in a line feed. *)
Definition accumulate (acc line : str) : str :=
  (if truthy acc then acc ++ lit "\n" else acc) ++ line.

(** A string that is empty or ends in a character [strip] keeps. *)
Definition trimmed_end (s : str) : Prop :=
  s = [] \/ exists r c, s = r ++ [c] /\ isspace c = false.

(** An entry as the parser finalizes it: non-empty, trimmed, one line. *)
Definition finalized_item (s : str) : Prop :=
  truthy s = true /\ strip s = s /\ ~ In NL s.

(** The continuation rule read over every trimmed non-empty line without
    the bullet marker, header lines included. *)
Definition continuation_rule (st : pstate) (l : str) : Prop :=
  current_section st = "improvements"%string ->
  truthy (strip l) = true ->
  startswith (lit "-") (strip l) = false ->
  (truthy (improvement_point st) = true ->
   parse_line st l
   = Ok (mkState (sections st) "improvements"
                 (improvement_point st ++ lit " " ++ strip l)))
  /\ (truthy (improvement_point st) = false -> parse_line st l = Ok st).

(** The round trip of an improvements list through its bullet rendering. *)
Definition bullets_roundtrip (items : list str) : Prop :=
  exists d, _parse_documentation (render_bullets items) = Ok d
            /\ dict_get d "improvements" = Some (VList items).

(** The section the scan is in after a trimmed line read in section [cs]:
    that of the first header prefix the line starts with, else [cs]. *)
Definition next_section (cs : string) (line : str) : string :=
  match find (fun h => startswith (fst h) line) header_prefixes with
  | Some h => snd h
  | None => cs
  end.

(** Whether the scan of [lines], started in section [cs], takes the bullet
    branch on a line that has text after the marker. *)
Fixpoint reads_bullet_text (cs : string) (lines : list str) : bool :=
  match lines with
  | [] => false
  | l :: rest =>
      is_bullet cs (strip l) && truthy (strip (slice_from_1 (strip l)))
      || reads_bullet_text (next_section cs (strip l)) rest
  end.

Definition append_error : exn :=
  AttributeError (lit "'str' object has no attribute 'append'").

(** The text a free-text section ends with when its lines are [body]: the
    trimmed non-empty lines joined by line feeds. *)
Definition section_text (body : list str) : str :=
  join (lit "\n") (filter truthy (map strip body)).

(** A line as the scan keeps it: non-empty, trimmed, without a line feed. *)
Definition kept_line (l : str) : Prop :=
  truthy l = true /\ strip l = l /\ ~ In NL l.

(** A text with no surrounding whitespace whose lines, when it has any, are
    non-empty, trimmed and no headers. *)
Definition clean_text (x : str) : Prop :=
  strip x = x
  /\ (x = []
      \/ Forall (fun l => truthy l = true /\ strip l = l
                          /\ is_header l = false)
                (split NL x)).

(** A line as a free-text field keeps it. *)
Definition field_line (l : str) : Prop :=
  kept_line l /\ is_header l = false.

(** A text that is the join of such lines. *)
Definition joined_text (x : str) : Prop :=
  exists ls, Forall field_line ls /\ x = join [NL] ls.

(** What the scan keeps true of every value of [sections]. *)
Definition field_value (v : value) : Prop :=
  exists x, v = VStr x /\ joined_text x.

(** The document whose only text is [x], in [overview]. *)
Definition overview_only (x : str) : dict :=
  [ ("overview", VStr x);
    ("functions", VStr []);
    ("parameters", VStr []);
    ("examples", VStr []);
    ("improvements", VStr []) ]%string.

(** A line of the reply whose trimmed text starts with the prefix [p]. *)
Definition header_line (p h : str) : Prop :=
  ~ In NL h /\ startswith p (strip h) = true.

(** A line of the reply that is no header. *)
Definition body_line (l : str) : Prop :=
  ~ In NL l /\ is_header (strip l) = false.

(** ** The interactive prompts *)

(** [str.lower] on one ASCII character. *)
Definition ascii_lower (c : char) : char :=
  if ((65 <=? c) && (c <=? 90))%N%bool then (c + 32)%N else c.

Definition is_ascii (s : str) : bool := forallb (fun c => (c <? 128)%N) s.

(** The members of the two set literals. *)
Definition valid_languages : list str :=
  [ lit "python"; lit "javascript"; lit "java"; lit "cpp"; lit "c++";
    lit "typescript"; lit "ruby"; lit "go"; lit "rust" ].

Definition valid_styles : list str :=
  [ lit "google"; lit "numpy"; lit "sphinx" ].

(** One event at the keyboard: a line given to [input()], or Ctrl-C. The end
    of the list is the end of the input. *)
Inductive keyboard :=
| Line (s : str)
| Interrupt.

(** What reading from the keyboard ends in: a value and the input left, a
    [KeyboardInterrupt], or an [EOFError]. *)
Inductive typed (A : Type) :=
| Typed (a : A) (rest : list keyboard)
| Cancelled (rest : list keyboard)
| EndOfInput.
Arguments Typed {A} a rest.
Arguments Cancelled {A} rest.
Arguments EndOfInput {A}.

Section Prompts.

(** [str.lower], and the order in which the two sets are iterated when the
    error messages are built. *)
Variable lower : str -> str.
Variable languages_order styles_order : list str.

(** [validate_language] *)
Definition validate_language (language : str) : bool * str :=
  if negb (existsb (str_eqb (lower language)) valid_languages)
  then (false,
        lit "Unsupported language. Supported languages: "
        ++ join (lit ", ") languages_order)
  else (true, []).

(** [validate_style] *)
Definition validate_style (style : str) : bool * str :=
  if negb (existsb (str_eqb (lower style)) valid_styles)
  then (false,
        lit "Unsupported style. Supported styles: "
        ++ join (lit ", ") styles_order)
  else (true, []).

(** The test that ends the pasted code: [line.strip().lower() == 'done']. *)
Definition is_done (line : str) : bool :=
  str_eqb (lower (strip line)) (lit "done").

(** The loop of [get_multiline_input_windows], with the lines read so
    far. *)
Fixpoint read_code (stdin : list keyboard) (lines : list str) : typed str :=
  match stdin with
  | [] => Typed (join (lit "\n") lines) []
  | Line line :: rest =>
      if is_done line then Typed (join (lit "\n") lines) rest
      else read_code rest (lines ++ [line])
  | Interrupt :: rest => Cancelled rest
  end.

Definition get_multiline_input_windows (stdin : list keyboard) : typed str :=
  read_code stdin [].

(** The loop of [main] that asks for the docstring style. *)
Fixpoint ask_style (stdin : list keyboard) : typed str :=
  match stdin with
  | [] => EndOfInput
  | Line answer :: rest =>
      let style :=
        if truthy (strip answer) then strip answer else lit "google" in
      if fst (validate_style style) then Typed style rest
      else ask_style rest
  | Interrupt :: rest => Cancelled rest
  end.

(** The loop of [main] that asks for the programming language. *)
Fixpoint ask_language (stdin : list keyboard) : typed str :=
  match stdin with
  | [] => EndOfInput
  | Line answer :: rest =>
      let language :=
        if truthy (strip answer) then strip answer else lit "python" in
      if fst (validate_language language) then Typed language rest
      else ask_language rest
  | Interrupt :: rest => Cancelled rest
  end.

End Prompts.

(** The trimmed lines of [lines] that the scan, started in section [cs],
    reads as content while the current section is [k]. *)
Fixpoint lines_of (k cs : string) (lines : list str) : list str :=
  match lines with
  | [] => []
  | l :: rest =>
      (if truthy (strip l) && negb (is_header (strip l)) && String.eqb cs k
       then [strip l] else [])
      ++ lines_of k (next_section cs (strip l)) rest
  end.

(** The text of field [k] for the reply [raw]. *)
Definition field_text (k : string) (raw : str) : str :=
  join (lit "\n") (lines_of k "overview" (split NL raw)).

(** ** Writing the file, one [f.write] at a time *)

Section FileWrite.

(** The file is opened without an encoding, so the one of the locale is
    used: [encodable] tells which characters it has, [encode_error] is the
    [UnicodeEncodeError] that writing a text with another character
    raises. *)
Variable encodable : char -> bool.
Variable encode_error : str -> exn.

(** [f.write(s)] after [written]: what has been written then. *)
Definition fwrite (written s : str) : result str :=
  if forallb encodable s then Ok (written ++ s)
  else Raise (encode_error s).

(** The [txt] branch of [save_documentation], statement by statement. *)
Definition save_documentation_write (docs : dict) (docstring code : str)
  : result str :=
  w <- fwrite [] (lit "=== Original Code ===\n\n") ;;
  w <- fwrite w code ;;
  w <- fwrite w (lit "\n\n=== Documentation ===\n\n") ;;
  w <- fwrite w (lit "Overview:\n") ;;
  o <- field_strip docs "overview" ;;
  w <- fwrite w o ;;
  w <- fwrite w (lit "\n\nFunctions:\n") ;;
  f <- field_strip docs "functions" ;;
  w <- fwrite w f ;;
  w <- fwrite w (lit "\n\nParameters:\n") ;;
  p <- field_strip docs "parameters" ;;
  w <- fwrite w p ;;
  w <- fwrite w (lit "\n\nExamples:\n") ;;
  e <- field_strip docs "examples" ;;
  w <- fwrite w e ;;
  w <- fwrite w (lit "\n\nImprovements:\n") ;;
  w <- match dict_get docs "improvements" with
       | None => Raise (KeyError "improvements")
       | Some (VList items) =>
           fold_left
             (fun acc item =>
                w <- acc ;; fwrite w (lit "- " ++ item ++ lit "\n"))
             items (Ok w)
       | Some (VStr s) => fwrite w (strip s)
       end ;;
  w <- fwrite w (lit "\n\n=== Generated Docstring ===\n\n") ;;
  fwrite w docstring.

End FileWrite.

(** ** What trimming means *)

(** [r] is [text] without some whitespace at its two ends. *)
Definition surrounded (text r : str) : Prop :=
  exists pre post,
    text = pre ++ r ++ post
    /\ forallb isspace pre = true /\ forallb isspace post = true.

(** [r] neither starts nor ends with whitespace. *)
Definition no_outer_space (r : str) : Prop :=
  r = []
  \/ ((exists c m, r = c :: m /\ isspace c = false)
      /\ (exists m d, r = m ++ [d] /\ isspace d = false)).

Arguments lit : simpl never.

(** * Properties *)

(** ** Strings *)

Section StringFacts.

Lemma lit_nl : lit "\n" = [NL].
Proof. reflexivity. Qed.

Lemma lstrip_head (s : str) (c : char) (r : str) :
  lstrip s = c :: r -> isspace c = false.
Proof.
  induction s as [|a s IH]; simpl; [discriminate|].
  destruct (isspace a) eqn:Ea; [exact IH|].
  intros E. injection E as -> _. exact Ea.
Qed.

Lemma lstrip_keeps (c : char) (s : str) :
  isspace c = false -> lstrip (c :: s) = c :: s.
Proof. intros H. simpl. now rewrite H. Qed.

Lemma rstrip_snoc (s : str) (c : char) :
  isspace c = false -> rstrip (s ++ [c]) = s ++ [c].
Proof.
  intros H. unfold rstrip. rewrite rev_app_distr. simpl rev at 2.
  simpl app. rewrite lstrip_keeps by exact H.
  simpl. now rewrite rev_involutive.
Qed.

Lemma rstrip_trimmed_end (s : str) : trimmed_end (rstrip s).
Proof.
  unfold rstrip. destruct (lstrip (rev s)) as [|c r] eqn:E.
  - now left.
  - right. exists (rev r), c. split; [reflexivity|].
    eapply lstrip_head; eassumption.
Qed.

Lemma strip_trimmed_end (s : str) : trimmed_end (strip s).
Proof. apply rstrip_trimmed_end. Qed.

Lemma trimmed_end_app (a b : str) :
  truthy b = true -> trimmed_end b -> trimmed_end (a ++ b).
Proof.
  intros Hb [->|(r & c & -> & Hc)]; [discriminate|].
  right. exists (a ++ r), c. now rewrite app_assoc.
Qed.

Lemma isspace_nl_contra (c : char) : isspace c = false -> N.eqb NL c = false.
Proof.
  intros H. destruct (N.eqb NL c) eqn:E; [|reflexivity].
  apply N.eqb_eq in E. subst c. discriminate H.
Qed.

(** On such an accumulator the guard of the source is just non-emptiness. *)
Lemma endswith_guard (acc : str) :
  trimmed_end acc ->
  (truthy acc && negb (endswith (lit "\n") acc))%bool = truthy acc.
Proof.
  intros [->|(r & c & -> & Hc)]; [reflexivity|].
  rewrite lit_nl. unfold endswith. rewrite rev_app_distr.
  cbn [rev app startswith].
  rewrite (isspace_nl_contra _ Hc). cbn [andb negb]. apply andb_true_r.
Qed.

Lemma strip_fixed (c d : char) (m : str) :
  isspace c = false -> isspace d = false ->
  strip (c :: m ++ [d]) = c :: m ++ [d].
Proof.
  intros Hc Hd. unfold strip. rewrite lstrip_keeps by exact Hc.
  change (c :: m ++ [d]) with ((c :: m) ++ [d]).
  now apply rstrip_snoc.
Qed.

Lemma split_no_sep (sep : char) (s : str) :
  ~ In sep s -> split sep s = [s].
Proof.
  induction s as [|c s IH]; simpl; [reflexivity|].
  intros H. destruct (N.eqb c sep) eqn:E.
  - apply N.eqb_eq in E. exfalso. apply H. now left.
  - rewrite IH; [reflexivity|]. intros Hin. apply H. now right.
Qed.

Lemma split_app_sep (sep : char) (s rest : str) :
  ~ In sep s -> split sep (s ++ sep :: rest) = s :: split sep rest.
Proof.
  induction s as [|c s IH]; simpl.
  - intros _. now rewrite N.eqb_refl.
  - intros H. destruct (N.eqb c sep) eqn:E.
    + apply N.eqb_eq in E. exfalso. apply H. now left.
    + rewrite IH; [reflexivity|]. intros Hin. apply H. now right.
Qed.

Lemma split_join (sep : char) (parts : list str) :
  parts <> [] ->
  Forall (fun p => ~ In sep p) parts ->
  split sep (join [sep] parts) = parts.
Proof.
  induction parts as [|p rest IH]; [congruence|].
  intros _ Hall. inversion Hall as [|? ? Hp Hrest]; subst.
  destruct rest as [|q rest'].
  - simpl. now apply split_no_sep.
  - change (join [sep] (p :: q :: rest'))
      with (p ++ sep :: join [sep] (q :: rest')).
    rewrite split_app_sep by exact Hp.
    f_equal. apply IH; [discriminate|exact Hrest].
Qed.

Lemma join_cons_app (sep a l : str) (rest : list str) :
  join sep ((a ++ sep ++ l) :: rest) = a ++ sep ++ join sep (l :: rest).
Proof.
  destruct rest as [|x rest]; [reflexivity|].
  change (join sep ((a ++ sep ++ l) :: x :: rest))
    with ((a ++ sep ++ l) ++ sep ++ join sep (x :: rest)).
  change (join sep (l :: x :: rest)) with (l ++ sep ++ join sep (x :: rest)).
  now rewrite <- !app_assoc.
Qed.

Lemma fold_accumulate_join (ls : list str) (acc : str) :
  truthy acc = true ->
  fold_left accumulate ls acc = join (lit "\n") (acc :: ls).
Proof.
  revert acc. induction ls as [|l ls IH]; intros acc Hacc; [reflexivity|].
  simpl fold_left. unfold accumulate at 2. rewrite Hacc.
  rewrite IH.
  - rewrite <- app_assoc. rewrite join_cons_app.
    destruct ls; reflexivity.
  - rewrite <- app_assoc. destruct acc; [discriminate|reflexivity].
Qed.

Lemma fold_accumulate_nil (ls : list str) :
  Forall (fun l => truthy l = true) ls ->
  fold_left accumulate ls [] = join (lit "\n") ls.
Proof.
  destruct ls as [|l ls]; [reflexivity|].
  intros H. inversion H; subst. simpl fold_left.
  change (accumulate [] l) with l.
  now apply fold_accumulate_join.
Qed.

Lemma startswith_hd (p s : str) (a : char) :
  hd_error p = Some a -> startswith p s = true -> hd_error s = Some a.
Proof.
  destruct p as [|x p]; [discriminate|]. intros [= ->].
  destruct s as [|y s]; simpl; [discriminate|].
  intros H. apply andb_prop in H as [H _].
  apply N.eqb_eq in H. now subst.
Qed.

Lemma startswith_hd_neq (p s : str) (a b : char) :
  hd_error p = Some a -> hd_error s = Some b -> a <> b ->
  startswith p s = false.
Proof.
  destruct p as [|x p]; [discriminate|]. intros [= ->].
  destruct s as [|y s]; [discriminate|]. intros [= ->] Hne.
  simpl. apply N.eqb_neq in Hne. now rewrite Hne.
Qed.

Lemma hd_truthy (s : str) (a : char) : hd_error s = Some a -> truthy s = true.
Proof. destruct s; [discriminate|reflexivity]. Qed.

Lemma startswith_app (p x : str) : startswith p (p ++ x) = true.
Proof.
  induction p as [|c p IH]; [reflexivity|].
  simpl. now rewrite N.eqb_refl.
Qed.

Lemma filter_all {A} (f : A -> bool) (l : list A) :
  Forall (fun x => f x = true) l -> filter f l = l.
Proof.
  induction 1 as [|x l Hx _ IH]; simpl; [reflexivity|].
  now rewrite Hx, IH.
Qed.

Lemma map_fixed {A} (f : A -> A) (l : list A) :
  Forall (fun x => f x = x) l -> map f l = l.
Proof.
  induction 1 as [|x l Hx _ IH]; simpl; [reflexivity|].
  now rewrite Hx, IH.
Qed.

End StringFacts.

(** Rewrites away the header tests whose first character differs from the
    first character of [line]. *)
Ltac other_headers line Hhd :=
  repeat match goal with
  | |- context [startswith (lit ?q) line] =>
      rewrite (startswith_hd_neq (lit q) line _ _ eq_refl Hhd)
        by (intros Heq; discriminate Heq)
  end.

(** ** Dictionaries *)

Section DictFacts.

Lemma dict_keys_set (d : dict) (k : string) (v : value) :
  dict_in k d = true -> dict_keys (dict_set d k v) = dict_keys d.
Proof.
  unfold dict_in, dict_keys.
  induction d as [|[k' v'] d IH]; simpl; [discriminate|].
  destruct (String.eqb k' k) eqn:E; simpl; [reflexivity|].
  intros H. f_equal. exact (IH H).
Qed.

Lemma dict_get_set_other (d : dict) (k k' : string) (v : value) :
  String.eqb k k' = false ->
  dict_get (dict_set d k v) k' = dict_get d k'.
Proof.
  intros Hne. induction d as [|[k0 v0] d IH]; simpl.
  - now rewrite Hne.
  - destruct (String.eqb k0 k) eqn:E; simpl.
    + apply String.eqb_eq in E. subst k0. now rewrite Hne.
    + now rewrite IH.
Qed.

Lemma dict_in_keys (d : dict) (k : string) :
  dict_in k d = true <-> In k (dict_keys d).
Proof.
  unfold dict_in, dict_keys.
  induction d as [|[k' v'] d IH]; simpl.
  - split; [discriminate|tauto].
  - destruct (String.eqb k' k) eqn:E.
    + apply String.eqb_eq in E. tauto.
    + apply String.eqb_neq in E. tauto.
Qed.

Lemma dict_append_keys (d d' : dict) (k : string) (x : str) :
  dict_append d k x = Ok d' -> dict_keys d' = dict_keys d.
Proof.
  unfold dict_append. destruct (dict_get d k) as [[s|l]|] eqn:E;
    try discriminate.
  intros H. injection H as <-. apply dict_keys_set.
  unfold dict_in. now rewrite E.
Qed.

Lemma dict_append_str (d : dict) (k : string) (s x : str) :
  dict_get d k = Some (VStr s) ->
  dict_append d k x =
  Raise (AttributeError (lit "'str' object has no attribute 'append'")).
Proof. intros H. unfold dict_append. now rewrite H. Qed.

End DictFacts.

(** ** The loop body, branch by branch *)

Section LoopBody.

Lemma is_header_false (line : str) :
  is_header line = false ->
  startswith (lit "1. Brief Overview:") line = false
  /\ startswith (lit "2. Detailed Function Documentation:") line = false
  /\ startswith (lit "3. Parameters and Return Values:") line = false
  /\ startswith (lit "4. Usage Examples:") line = false
  /\ startswith (lit "5. Any potential improvements") line = false
  /\ startswith (lit "Improvements:") line = false.
Proof.
  unfold is_header, header_prefixes, numbered_headers.
  cbn [existsb app fst]. rewrite !orb_false_iff. tauto.
Qed.

(** A blank line changes nothing. *)
Lemma parse_line_blank (st : pstate) (l : str) :
  truthy (strip l) = false -> parse_line st l = Ok st.
Proof. intros H. unfold parse_line. now rewrite H. Qed.

(** Each of the six prefixes switches to its section and drops the line. *)
Lemma parse_line_header (st : pstate) (l p : str) (name : string) :
  In (p, name) header_prefixes ->
  startswith p (strip l) = true ->
  parse_line st l = Ok (set_section st name).
Proof.
  intros Hin Hp.
  unfold header_prefixes, numbered_headers in Hin. cbn [app In] in Hin.
  unfold parse_line.
  destruct Hin as [E|[E|[E|[E|[E|[E|[]]]]]]];
    injection E as <- <-;
    match type of Hp with
    | startswith ?q _ = true =>
        pose proof (startswith_hd q _ _ eq_refl Hp) as Hhd
    end;
    rewrite (hd_truthy _ _ Hhd); cbn [negb];
    rewrite Hp; other_headers (strip l) Hhd;
    rewrite ?orb_true_r; reflexivity.
Qed.

(** Any other non-empty line reaches the lower branches. *)
Lemma parse_line_content (st : pstate) (l : str) :
  truthy (strip l) = true -> is_header (strip l) = false ->
  parse_line st l = line_body st (strip l).
Proof.
  intros Ht Hh. apply is_header_false in Hh.
  destruct Hh as (H1 & H2 & H3 & H4 & H5 & H6).
  unfold parse_line. rewrite Ht, H1, H2, H3, H4, H5, H6. reflexivity.
Qed.

Lemma parse_line_cases (st : pstate) (l : str) :
  parse_line st l = Ok st
  \/ (exists name, parse_line st l = Ok (set_section st name))
  \/ (truthy (strip l) = true /\ is_header (strip l) = false
      /\ parse_line st l = line_body st (strip l)).
Proof.
  destruct (truthy (strip l)) eqn:Ht.
  - destruct (is_header (strip l)) eqn:Hh.
    + right; left. unfold is_header in Hh.
      apply existsb_exists in Hh as ([p name] & Hin & Hp).
      exists name. eapply parse_line_header; eassumption.
    + right; right. repeat split. now apply parse_line_content.
  - left. now apply parse_line_blank.
Qed.

End LoopBody.

(** ** The scan *)

Section Scan.

Lemma line_body_keys (st st' : pstate) (line : str) :
  line_body st line = Ok st' ->
  dict_keys (sections st') = dict_keys (sections st).
Proof.
  unfold line_body.
  destruct (startswith (lit "-") line
            && String.eqb (current_section st) "improvements")%bool.
  - destruct (truthy (improvement_point st)).
    + destruct (dict_append (sections st) "improvements"
                  (strip (improvement_point st))) as [secs|e] eqn:E;
        [|discriminate].
      intros [= <-]. eapply dict_append_keys; eassumption.
    + now intros [= <-].
  - destruct (String.eqb (current_section st) "improvements").
    + destruct (truthy (improvement_point st)); now intros [= <-].
    + destruct (dict_in (current_section st) (sections st)) eqn:Hin;
        [|now intros [= <-]].
      destruct (dict_get (sections st) (current_section st)) as [[acc|?]|];
        try now intros [= <-].
      intros [= <-]. now apply dict_keys_set.
Qed.

Lemma parse_line_keys (st st' : pstate) (l : str) :
  parse_line st l = Ok st' ->
  dict_keys (sections st') = dict_keys (sections st).
Proof.
  destruct (parse_line_cases st l) as [E|[[name E]|(_ & _ & E)]];
    rewrite E.
  - now intros [= <-].
  - now intros [= <-].
  - apply line_body_keys.
Qed.

Lemma line_body_improvements (st st' : pstate) (line s : str) :
  dict_get (sections st) "improvements" = Some (VStr s) ->
  line_body st line = Ok st' ->
  dict_get (sections st') "improvements" = Some (VStr s).
Proof.
  intros Hs. unfold line_body.
  destruct (startswith (lit "-") line
            && String.eqb (current_section st) "improvements")%bool.
  - destruct (truthy (improvement_point st)).
    + now rewrite (dict_append_str _ _ _ _ Hs).
    + now intros [= <-].
  - destruct (String.eqb (current_section st) "improvements") eqn:Hcs.
    + destruct (truthy (improvement_point st)); now intros [= <-].
    + destruct (dict_in (current_section st) (sections st));
        [|now intros [= <-]].
      destruct (dict_get (sections st) (current_section st)) as [[acc|?]|];
        try now intros [= <-].
      intros [= <-]. cbn [sections].
      now rewrite dict_get_set_other.
Qed.

Lemma parse_line_improvements (st st' : pstate) (l s : str) :
  dict_get (sections st) "improvements" = Some (VStr s) ->
  parse_line st l = Ok st' ->
  dict_get (sections st') "improvements" = Some (VStr s).
Proof.
  intros Hs.
  destruct (parse_line_cases st l) as [E|[[name E]|(_ & _ & E)]];
    rewrite E.
  - now intros [= <-].
  - now intros [= <-].
  - now apply line_body_improvements.
Qed.

Lemma parse_lines_invariant (lines : list str) (st st' : pstate) (s : str) :
  dict_get (sections st) "improvements" = Some (VStr s) ->
  parse_lines st lines = Ok st' ->
  dict_keys (sections st') = dict_keys (sections st)
  /\ dict_get (sections st') "improvements" = Some (VStr s).
Proof.
  revert st. induction lines as [|l lines IH]; intros st Hs; simpl.
  - now intros [= <-].
  - destruct (parse_line st l) as [st1|e] eqn:E; [|discriminate].
    cbn [bind]. intros H.
    destruct (IH st1 (parse_line_improvements _ _ _ _ Hs E) H) as [Hk Hi].
    split; [|exact Hi].
    rewrite Hk. eapply parse_line_keys; eassumption.
Qed.

(** A reply the parser accepts comes back with the five keys, and with
    [improvements] still the empty string it was initialised to. *)
Lemma parse_documentation_ok (raw : str) (d : dict) :
  _parse_documentation raw = Ok d ->
  dict_keys d = section_keys
  /\ dict_get d "improvements" = Some (VStr []).
Proof.
  unfold _parse_documentation.
  destruct (parse_lines initial_state (split NL raw)) as [st|e] eqn:E;
    [|discriminate].
  cbn [bind].
  destruct (parse_lines_invariant _ initial_state _ [] eq_refl E) as [Hk Hi].
  destruct (truthy (improvement_point st)).
  - now rewrite (dict_append_str _ _ _ _ Hi).
  - cbn [bind]. intros [= <-]. split; [exact Hk|exact Hi].
Qed.

Lemma overview_state_in (acc : str) :
  dict_in (current_section (overview_state acc))
          (sections (overview_state acc)) = true.
Proof. reflexivity. Qed.

Lemma overview_state_get (acc : str) :
  dict_get (sections (overview_state acc))
           (current_section (overview_state acc)) = Some (VStr acc).
Proof. reflexivity. Qed.

Lemma line_body_overview (acc line : str) :
  trimmed_end acc ->
  line_body (overview_state acc) line
  = Ok (overview_state (accumulate acc line)).
Proof.
  intros Hacc. unfold line_body.
  rewrite overview_state_in, overview_state_get.
  change (String.eqb (current_section (overview_state acc)) "improvements")
    with false.
  rewrite andb_false_r, (endswith_guard _ Hacc). reflexivity.
Qed.

Lemma parse_lines_overview (lines : list str) (acc : str) :
  trimmed_end acc ->
  Forall (fun l => is_header (strip l) = false) lines ->
  parse_lines (overview_state acc) lines
  = Ok (overview_state
          (fold_left accumulate (filter truthy (map strip lines)) acc)).
Proof.
  revert acc. induction lines as [|l lines IH]; intros acc Hacc Hall;
    [reflexivity|].
  inversion Hall as [|? ? Hl Hrest]; subst.
  cbn [parse_lines map filter].
  destruct (truthy (strip l)) eqn:Ht.
  - rewrite (parse_line_content _ _ Ht Hl), line_body_overview by exact Hacc.
    cbn [bind fold_left]. apply IH; [|exact Hrest].
    unfold accumulate. apply trimmed_end_app;
      [exact Ht|apply strip_trimmed_end].
  - rewrite (parse_line_blank _ _ Ht). cbn [bind]. now apply IH.
Qed.

(** With no header line the scan never leaves [overview]. *)
Lemma parse_without_headers (raw : str) :
  Forall (fun l => is_header (strip l) = false) (split NL raw) ->
  _parse_documentation raw
  = Ok (sections
          (overview_state
             (join (lit "\n") (filter truthy (map strip (split NL raw)))))).
Proof.
  intros Hall. unfold _parse_documentation.
  change initial_state with (overview_state []).
  rewrite (parse_lines_overview _ [] (or_introl eq_refl) Hall).
  cbn [bind]. rewrite fold_accumulate_nil.
  - reflexivity.
  - apply Forall_forall. intros x Hx. apply filter_In in Hx. tauto.
Qed.

Lemma line_body_no_bullet (st st' : pstate) (line : str) :
  improvement_point st = [] ->
  (startswith (lit "-") line
   && String.eqb (current_section st) "improvements")%bool = false ->
  line_body st line = Ok st' -> improvement_point st' = [].
Proof.
  intros Hip Hb. unfold line_body. rewrite Hb, Hip. cbn [truthy].
  destruct (String.eqb (current_section st) "improvements");
    [now intros [= <-]|].
  destruct (dict_in (current_section st) (sections st));
    [|now intros [= <-]].
  destruct (dict_get (sections st) (current_section st)) as [[acc|?]|];
    now intros [= <-].
Qed.

Lemma parse_line_no_bullet (st st' : pstate) (l : str) :
  improvement_point st = [] ->
  is_bullet (current_section st) (strip l) = false ->
  parse_line st l = Ok st' -> improvement_point st' = [].
Proof.
  intros Hip Hb.
  destruct (parse_line_cases st l) as [E|[[name E]|(Ht & Hh & E)]];
    rewrite E.
  - now intros [= <-].
  - now intros [= <-].
  - apply line_body_no_bullet; [exact Hip|].
    unfold is_bullet in Hb. rewrite Ht, Hh in Hb. exact Hb.
Qed.

(** The pending buffer stays empty until the bullet branch is taken. *)
Lemma no_bullet_no_pending (lines : list str) (st st' : pstate) :
  improvement_point st = [] ->
  parse_lines st lines = Ok st' ->
  seen_bullet st lines = false ->
  improvement_point st' = [].
Proof.
  revert st. induction lines as [|l lines IH]; intros st Hip; simpl.
  - now intros [= <-].
  - destruct (parse_line st l) as [st1|e] eqn:E; [|discriminate].
    cbn [bind]. intros Hrun Hseen.
    apply orb_false_iff in Hseen as [Hb Hrest].
    apply (IH st1); [|exact Hrun|exact Hrest].
    eapply parse_line_no_bullet; eassumption.
Qed.

Lemma rendered_line (item : str) :
  finalized_item item ->
  strip (lit "- " ++ item) = lit "- " ++ item
  /\ is_header (lit "- " ++ item) = false
  /\ truthy (lit "- " ++ item) = true
  /\ ~ In NL (lit "- " ++ item).
Proof.
  intros (Ht & Hs & Hnl).
  destruct (strip_trimmed_end item) as [E|(r & c & E & Hc)];
    rewrite Hs in E; subst item; [discriminate|].
  change (lit "- ") with [DASH; SP].
  split; [|split; [|split]].
  - change ([DASH; SP] ++ r ++ [c]) with (DASH :: (SP :: r) ++ [c]).
    now apply strip_fixed.
  - reflexivity.
  - reflexivity.
  - intros [E|[E|Hin]]; [discriminate E|discriminate E|now apply Hnl].
Qed.

End Scan.

(** ** The parser on the replies of the specification *)

Section ParserClaims.

(** C1. The parser is not total: on every reply made of an improvements
    header and one bullet with text it raises [AttributeError], because the
    entry pending at the end of the scan is appended to the string that
    [improvements] was initialised to. *)
Theorem parser_raises_on_bullet (item : str) :
  finalized_item item ->
  _parse_documentation (lit "Improvements:\n- " ++ item)
  = Raise (AttributeError (lit "'str' object has no attribute 'append'")).
Proof.
  intros Hitem.
  destruct (rendered_line item Hitem) as (Hstrip & Hhead & Hline & Hnl).
  destruct Hitem as (Ht & Hs & _).
  unfold _parse_documentation.
  change (lit "Improvements:\n- " ++ item)
    with (lit "Improvements:" ++ NL :: (lit "- " ++ item)).
  rewrite split_app_sep, (split_no_sep NL _ Hnl).
  - cbn [parse_lines].
    change (parse_line initial_state (lit "Improvements:"))
      with (Ok (set_section initial_state "improvements")).
    cbn [bind]. rewrite parse_line_content; rewrite Hstrip; try assumption.
    change (line_body (set_section initial_state "improvements")
              (lit "- " ++ item))
      with (Ok (mkState initial_sections "improvements" (strip item))).
    cbn [bind improvement_point]. rewrite Hs, Ht. reflexivity.
  - vm_compute. intuition discriminate.
Qed.

Lemma parser_raises_on_bullet_witness :
  _parse_documentation (lit "Improvements:\n- Add tests")
  = Raise (AttributeError (lit "'str' object has no attribute 'append'")).
Proof.
  apply (parser_raises_on_bullet (lit "Add tests")).
  repeat split; vm_compute; intuition discriminate.
Defined.

(** C2. On the two-bullet reply the parser does not return the list of the two
    entries: finalizing the first entry, when the second bullet is read,
    raises [AttributeError]. *)
Theorem two_bullets_raise :
  _parse_documentation
    (lit "5. Any potential improvements or considerations\n- First point\n- Second point continues here")
  = Raise (AttributeError (lit "'str' object has no attribute 'append'")).
Proof. vm_compute. reflexivity. Qed.

(** C3. On the end-to-end reply the parser does not return the five-field
    document: the entry pending at the end of the scan is finalized after
    the loop, and that raises [AttributeError]. *)
Theorem end_to_end_reply_raises :
  _parse_documentation
    (lit "1. Brief Overview:\nDoes X.\n2. Detailed Function Documentation:\nfoo() does Y.\n5. Any potential improvements or considerations:\n- Add tests")
  = Raise (AttributeError (lit "'str' object has no attribute 'append'")).
Proof. vm_compute. reflexivity. Qed.

(** C4. When no trimmed line of the reply starts with one of the recognised
    header prefixes, the parser returns a document whose [overview] is the
    trimmed non-empty lines joined by single line feeds in their order, and
    whose four other fields are empty. *)
Theorem no_header_all_overview (raw : str) :
  Forall (fun l => is_header (strip l) = false) (split NL raw) ->
  _parse_documentation raw
  = Ok [ ("overview",
          VStr (join (lit "\n")
                     (filter truthy (map strip (split NL raw)))));
         ("functions", VStr []);
         ("parameters", VStr []);
         ("examples", VStr []);
         ("improvements", VStr []) ]%string.
Proof. intros H. rewrite (parse_without_headers raw H). reflexivity. Qed.

Lemma no_header_all_overview_witness :
  _parse_documentation (lit "  Adds two numbers.  \n\n- it is short\nEnd.")
  = Ok [ ("overview", VStr (lit "Adds two numbers.\n- it is short\nEnd."));
         ("functions", VStr []);
         ("parameters", VStr []);
         ("examples", VStr []);
         ("improvements", VStr []) ]%string.
Proof.
  apply (no_header_all_overview
           (lit "  Adds two numbers.  \n\n- it is short\nEnd.")).
  vm_compute. repeat constructor.
Defined.

(** C9. A trimmed line that starts with [Improvements:] switches the current
    section to [improvements] and is dropped: the accumulators and the
    pending entry are unchanged. None of the five numbered prefixes matches
    such a line, so the parser recognises six header prefixes, each of which
    switches to its section. *)
Theorem improvements_prefix_is_sixth_header (st : pstate) (l : str) :
  startswith (lit "Improvements:") (strip l) = true ->
  parse_line st l
  = Ok (mkState (sections st) "improvements" (improvement_point st))
  /\ Forall (fun h => startswith (fst h) (strip l) = false) numbered_headers
  /\ List.length header_prefixes = 6
  /\ (forall p name l',
        In (p, name) header_prefixes ->
        startswith p (strip l') = true ->
        parse_line st l' = Ok (set_section st name)).
Proof.
  intros H. repeat split.
  - apply (parse_line_header st l (lit "Improvements:") "improvements");
      [|exact H].
    unfold header_prefixes. apply in_or_app. right. now left.
  - pose proof (startswith_hd (lit "Improvements:") _ _ eq_refl H) as Hhd.
    unfold numbered_headers.
    repeat constructor; cbn [fst]; other_headers (strip l) Hhd; reflexivity.
  - intros p name l'. apply parse_line_header.
Qed.

Lemma improvements_prefix_is_sixth_header_witness :
  parse_line (mkState initial_sections "functions" (lit "Add tests"))
             (lit "  Improvements: (optional)")
  = Ok (mkState initial_sections "improvements" (lit "Add tests")).
Proof.
  apply (improvements_prefix_is_sixth_header
           (mkState initial_sections "functions" (lit "Add tests"))
           (lit "  Improvements: (optional)")).
  reflexivity.
Defined.

End ParserClaims.

(** ** Continuation lines and the bullet rendering *)

Section Bullets.

(** C5, as the claim words it: the rule does not hold for every trimmed
    non-empty line without the bullet marker. After [Improvements:] and one
    bullet, a second line [Improvements:] is taken by the header branch and
    leaves the pending entry as it was. *)
Lemma continuation_rule_fails_on_header :
  parse_lines initial_state [lit "Improvements:"; lit "- Add tests"]
  = Ok (mkState initial_sections "improvements" (lit "Add tests"))
  /\ ~ continuation_rule
         (mkState initial_sections "improvements" (lit "Add tests"))
         (lit "Improvements:").
Proof.
  split; [reflexivity|].
  intros H. destruct (H eq_refl eq_refl eq_refl) as [Happend _].
  specialize (Happend eq_refl). vm_compute in Happend. discriminate Happend.
Qed.

(** C5, amended. While the current section is [improvements], a trimmed
    non-empty line that neither starts with the bullet marker nor with a
    header prefix is appended to the pending entry after one space when the
    pending entry is non-empty, and changes nothing when it is empty; it is
    empty in particular when the scan so far has taken no bullet. *)
Theorem continuation_appends_or_drops (st : pstate) (l : str) :
  current_section st = "improvements"%string ->
  truthy (strip l) = true ->
  startswith (lit "-") (strip l) = false ->
  is_header (strip l) = false ->
  (truthy (improvement_point st) = true ->
   parse_line st l
   = Ok (mkState (sections st) "improvements"
                 (improvement_point st ++ lit " " ++ strip l)))
  /\ (truthy (improvement_point st) = false -> parse_line st l = Ok st)
  /\ (forall prefix,
        parse_lines initial_state prefix = Ok st ->
        seen_bullet initial_state prefix = false ->
        parse_line st l = Ok st).
Proof.
  intros Hcs Ht Hdash Hh.
  assert (Hbody : parse_line st l
                  = if truthy (improvement_point st)
                    then Ok (mkState (sections st) (current_section st)
                               (improvement_point st ++ lit " " ++ strip l))
                    else Ok st).
  { rewrite (parse_line_content _ _ Ht Hh). unfold line_body.
    rewrite Hdash, Hcs. reflexivity. }
  repeat split.
  - intros Hip. rewrite Hbody, Hip, Hcs. reflexivity.
  - intros Hip. rewrite Hbody, Hip. reflexivity.
  - intros prefix Hrun Hseen.
    rewrite Hbody,
      (no_bullet_no_pending prefix initial_state st eq_refl Hrun Hseen).
    reflexivity.
Qed.

Lemma continuation_appends_or_drops_witness :
  parse_line (mkState initial_sections "improvements" (lit "Add tests"))
             (lit "   for the parser ")
  = Ok (mkState initial_sections "improvements"
                (lit "Add tests for the parser")).
Proof.
  refine (proj1 (continuation_appends_or_drops
                   (mkState initial_sections "improvements" (lit "Add tests"))
                   (lit "   for the parser ") _ _ _ _) _);
    reflexivity.
Defined.

(** C6, as the claim words it: the bullet rendering of the one-entry list
    does not parse back to that list. *)
Lemma bullets_roundtrip_fails : ~ bullets_roundtrip [lit "Add tests"].
Proof.
  intros (d & Hparse & Hget).
  vm_compute in Hparse. injection Hparse as <-.
  vm_compute in Hget. discriminate Hget.
Qed.

(** C6, amended. The bullet rendering of a list of finalized entries, fed to
    the parser with no improvements header before it, is not read as
    bullets: every rendered line, marker included, is kept in [overview],
    joined by line feeds in order, and the other fields stay empty. *)
Theorem rendered_bullets_go_to_overview (items : list str) :
  Forall finalized_item items ->
  _parse_documentation (render_bullets items)
  = Ok [ ("overview", VStr (render_bullets items));
         ("functions", VStr []);
         ("parameters", VStr []);
         ("examples", VStr []);
         ("improvements", VStr []) ]%string.
Proof.
  intros Hall. destruct items as [|i items]; [reflexivity|].
  set (lines := map (fun item => lit "- " ++ item) (i :: items)).
  assert (Hlines : Forall (fun line =>
                     strip line = line /\ is_header line = false
                     /\ truthy line = true /\ ~ In NL line) lines).
  { unfold lines. apply Forall_map.
    eapply Forall_impl; [|exact Hall]. apply rendered_line. }
  assert (Hsplit : split NL (render_bullets (i :: items)) = lines).
  { unfold render_bullets. rewrite lit_nl. apply split_join.
    - discriminate.
    - eapply Forall_impl; [|exact Hlines]. cbn beta. tauto. }
  rewrite parse_without_headers; rewrite Hsplit.
  - rewrite (map_fixed strip lines), (filter_all truthy lines).
    + reflexivity.
    + eapply Forall_impl; [|exact Hlines]. cbn beta. tauto.
    + eapply Forall_impl; [|exact Hlines]. cbn beta. tauto.
  - eapply Forall_impl; [|exact Hlines]. cbn beta.
    intros line (Hs & Hh & _). now rewrite Hs.
Qed.

Lemma rendered_bullets_go_to_overview_witness :
  _parse_documentation (lit "- First point\n- Second point continues here")
  = Ok [ ("overview",
          VStr (lit "- First point\n- Second point continues here"));
         ("functions", VStr []);
         ("parameters", VStr []);
         ("examples", VStr []);
         ("improvements", VStr []) ]%string.
Proof.
  apply (rendered_bullets_go_to_overview
           [lit "First point"; lit "Second point continues here"]).
  repeat constructor; try reflexivity;
    vm_compute; intuition discriminate.
Defined.

End Bullets.

(** ** The callers of the model *)

Section Callers.

Variable create : request -> outcome.

Lemma generate_documentation_value (code language : str) :
  value_of (generate_documentation create code language)
  = match create (documentation_request code language) with
    | Fails e => error_document e
    | Completion None =>
        error_document
          (AttributeError (lit "'NoneType' object has no attribute 'split'"))
    | Completion (Some text) =>
        match _parse_documentation text with
        | Ok documentation => documentation
        | Raise e => error_document e
        end
    end.
Proof. reflexivity. Qed.

Lemma generate_documentation_calls (code language : str) :
  calls (generate_documentation create code language)
  = [documentation_request code language].
Proof. reflexivity. Qed.

Lemma generate_docstring_calls (code style : str) :
  calls (generate_docstring create code style)
  = [docstring_request code style].
Proof. reflexivity. Qed.

Lemma error_document_shape (e : exn) :
  is_error_document (error_document e) = true
  /\ dict_keys (error_document e) = ["error"%string]
  /\ ~ is_valid_document (error_document e).
Proof. repeat split. intros H. discriminate H. Qed.

Lemma valid_document_no_error (d : dict) :
  is_valid_document d -> is_error_document d = false.
Proof.
  unfold is_valid_document, is_error_document. intros Hk.
  destruct (dict_in "error" d) eqn:E; [|reflexivity].
  apply dict_in_keys in E. rewrite Hk in E.
  cbn [section_keys In] in E. intuition discriminate.
Qed.

(** Whatever the model does, the returned document has one shape only. *)
Lemma document_shape (code language : str) :
  let d := value_of (generate_documentation create code language) in
  (is_error_document d = true /\ dict_keys d = ["error"%string]
   /\ ~ is_valid_document d)
  \/ (is_error_document d = false /\ is_valid_document d).
Proof.
  cbv zeta. rewrite generate_documentation_value.
  destruct (create (documentation_request code language)) as [[text|]|e];
    try (left; apply error_document_shape).
  destruct (_parse_documentation text) as [d|e] eqn:E;
    [|left; apply error_document_shape].
  right. apply parse_documentation_ok in E as [Hk _].
  split; [now apply valid_document_no_error|exact Hk].
Qed.

(** The validator rejects exactly the inputs that are blank once trimmed. *)
Lemma validate_code_input_blank (code : str) :
  fst (validate_code_input code) = false <-> strip code = [].
Proof.
  unfold validate_code_input. destruct (strip code); simpl; split;
    congruence.
Qed.

(** The interactive path rejects a blank input before any model call. *)
Lemma menu_generate_blank (choice code language style : str) :
  strip code = [] ->
  menu_generate create choice code language style = ([], false).
Proof.
  intros H. unfold menu_generate, validate_code_input. now rewrite H.
Qed.

End Callers.

Section CallerClaims.

(** C7. The non-interactive driver does not reject a blank code text: once
    the credential and the file are read, it sends the documentation request
    and the docstring request whatever the code text is, one that
    [validate_code_input] rejects included. *)
Theorem file_mode_sends_any_code (create : request -> outcome)
  (key code language : str) :
  truthy key = true ->
  calls (main_file create (Some key) (Ok code) language)
  = [ documentation_request code language;
      docstring_request code (lit "google") ].
Proof.
  intros Hkey. unfold main_file, load_config. rewrite Hkey. reflexivity.
Qed.

Lemma file_mode_sends_any_code_witness :
  fst (validate_code_input (lit "   \n")) = false
  /\ calls (main_file (fun _ => Completion (Some []))
                      (Some (lit "sk-test")) (Ok (lit "   \n"))
                      (lit "python"))
     = [ documentation_request (lit "   \n") (lit "python");
         docstring_request (lit "   \n") (lit "google") ].
Proof.
  split; [reflexivity|].
  apply (file_mode_sends_any_code (fun _ => Completion (Some []))
           (lit "sk-test") (lit "   \n") (lit "python")).
  reflexivity.
Defined.

(** C8. When the model call of [generate_documentation] raises, the value
    returned is the dictionary with the single key [error], whose text is
    the fixed prefix followed by the message of the exception; nothing is
    raised to the caller. Whatever the model does, the returned dictionary
    is either that error shape or a document with exactly the five section
    keys, never both. *)
Theorem model_failure_gives_error_document (create : request -> outcome)
  (code language : str) (e : exn) :
  create (documentation_request code language) = Fails e ->
  value_of (generate_documentation create code language)
  = [ ("error"%string,
       VStr (lit "Failed to generate documentation: " ++ str_of_exn e)) ]
  /\ (forall create' code' language',
        let d := value_of (generate_documentation create' code' language') in
        (is_error_document d = true /\ dict_keys d = ["error"%string]
         /\ ~ is_valid_document d)
        \/ (is_error_document d = false /\ is_valid_document d)).
Proof.
  intros H. split.
  - rewrite generate_documentation_value, H. reflexivity.
  - intros create' code' language'. apply document_shape.
Qed.

Lemma model_failure_gives_error_document_witness :
  value_of (generate_documentation
              (fun _ => Fails (OtherException (lit "Connection error.")))
              (lit "def f(): pass") (lit "python"))
  = [ ("error"%string,
       VStr (lit "Failed to generate documentation: Connection error.")) ].
Proof.
  apply (model_failure_gives_error_document
           (fun _ => Fails (OtherException (lit "Connection error.")))
           (lit "def f(): pass") (lit "python")
           (OtherException (lit "Connection error."))).
  reflexivity.
Defined.

End CallerClaims.

(** ** When the parser raises *)

Section Failure.

Lemma find_none_existsb {A} (f : A -> bool) (l : list A) :
  existsb f l = false -> find f l = None.
Proof.
  induction l as [|x l IH]; simpl; [reflexivity|].
  destruct (f x); simpl; [discriminate|exact IH].
Qed.

Lemma next_section_content (cs : string) (line : str) :
  is_header line = false -> next_section cs line = cs.
Proof.
  intros H. unfold next_section. now rewrite (find_none_existsb _ _ H).
Qed.

Lemma parse_line_header_next (st : pstate) (l : str) :
  is_header (strip l) = true ->
  parse_line st l
  = Ok (set_section st (next_section (current_section st) (strip l))).
Proof.
  intros H. unfold next_section.
  destruct (find (fun h => startswith (fst h) (strip l)) header_prefixes)
    as [[p name]|] eqn:E.
  - apply find_some in E as [Hin Hp]. cbn [fst snd] in *.
    eapply parse_line_header; eassumption.
  - unfold is_header in H. apply existsb_exists in H as (h & Hin & Hp).
    rewrite (find_none _ _ E h Hin) in Hp. discriminate Hp.
Qed.

Lemma is_header_blank (line : str) :
  truthy line = false -> is_header line = false.
Proof. destruct line; [reflexivity|discriminate]. Qed.

(** The three ways a line is read, with the section that follows. *)
Lemma parse_line_split (st : pstate) (l : str) :
  (truthy (strip l) = false /\ parse_line st l = Ok st
   /\ next_section (current_section st) (strip l) = current_section st)
  \/ (truthy (strip l) = true /\ is_header (strip l) = true
      /\ parse_line st l
         = Ok (set_section st (next_section (current_section st) (strip l))))
  \/ (truthy (strip l) = true /\ is_header (strip l) = false
      /\ parse_line st l = line_body st (strip l)
      /\ next_section (current_section st) (strip l) = current_section st).
Proof.
  destruct (truthy (strip l)) eqn:Ht.
  - destruct (is_header (strip l)) eqn:Hh.
    + right; left. repeat split. now apply parse_line_header_next.
    + right; right. repeat split.
      * now apply parse_line_content.
      * now apply next_section_content.
  - left. repeat split.
    + now apply parse_line_blank.
    + apply next_section_content. now apply is_header_blank.
Qed.

(** With nothing pending a line is always read, and something is pending
    afterwards exactly when the line is a bullet with text. *)
Lemma parse_line_clean (st : pstate) (l : str) :
  improvement_point st = [] ->
  exists st',
    parse_line st l = Ok st'
    /\ current_section st' = next_section (current_section st) (strip l)
    /\ truthy (improvement_point st')
       = (is_bullet (current_section st) (strip l)
          && truthy (strip (slice_from_1 (strip l))))%bool.
Proof.
  intros Hip. unfold is_bullet.
  destruct (parse_line_split st l)
    as [(Ht & E & Hn)|[(Ht & Hh & E)|(Ht & Hh & E & Hn)]];
    rewrite E, Ht, ?Hh; clear E.
  - exists st. rewrite Hn, Hip. repeat split.
  - eexists. split; [reflexivity|]. cbn. rewrite Hip. repeat split.
  - rewrite Hn. cbn [negb andb]. unfold line_body. rewrite Hip. cbn [truthy].
    destruct (startswith (lit "-") (strip l)
              && String.eqb (current_section st) "improvements")%bool.
    + eexists. cbn [bind]. repeat split.
    + destruct (String.eqb (current_section st) "improvements").
      * exists st. rewrite Hip. repeat split.
      * destruct (dict_in (current_section st) (sections st)).
        -- destruct (dict_get (sections st) (current_section st))
             as [[acc|?]|]; eexists; (split; [reflexivity|]);
             cbn; rewrite ?Hip; repeat split.
        -- exists st. rewrite Hip. repeat split.
Qed.

(** With an entry pending a line either raises, on the next bullet, or
    leaves an entry pending. *)
Lemma parse_line_pending (st : pstate) (l s : str) :
  truthy (improvement_point st) = true ->
  dict_get (sections st) "improvements" = Some (VStr s) ->
  parse_line st l = Raise append_error
  \/ exists st', parse_line st l = Ok st'
                 /\ truthy (improvement_point st') = true.
Proof.
  intros Hip Hs.
  destruct (parse_line_split st l)
    as [(_ & E & _)|[(_ & _ & E)|(_ & _ & E & _)]]; rewrite E; clear E.
  - right. now exists st.
  - right. eexists. split; [reflexivity|exact Hip].
  - unfold line_body. rewrite Hip.
    destruct (startswith (lit "-") (strip l)
              && String.eqb (current_section st) "improvements")%bool.
    + left. now rewrite (dict_append_str _ _ _ _ Hs).
    + right. destruct (String.eqb (current_section st) "improvements").
      * eexists. split; [reflexivity|]. cbn [improvement_point].
        destruct (improvement_point st); [discriminate|reflexivity].
      * destruct (dict_in (current_section st) (sections st));
          [|now exists st].
        destruct (dict_get (sections st) (current_section st))
          as [[acc|?]|]; eexists; (split; [reflexivity|exact Hip]).
Qed.

Lemma scan_pending (lines : list str) (st : pstate) (s : str) :
  truthy (improvement_point st) = true ->
  dict_get (sections st) "improvements" = Some (VStr s) ->
  parse_lines st lines = Raise append_error
  \/ exists st', parse_lines st lines = Ok st'
                 /\ truthy (improvement_point st') = true.
Proof.
  revert st. induction lines as [|l lines IH]; intros st Hip Hs.
  - right. now exists st.
  - cbn [parse_lines].
    destruct (parse_line_pending st l s Hip Hs) as [E|(st1 & E & Hip1)];
      rewrite E; cbn [bind]; [now left|].
    apply IH; [exact Hip1|].
    eapply parse_line_improvements; eassumption.
Qed.

Lemma scan_clean (lines : list str) (st : pstate) (s : str) :
  improvement_point st = [] ->
  dict_get (sections st) "improvements" = Some (VStr s) ->
  if reads_bullet_text (current_section st) lines
  then parse_lines st lines = Raise append_error
       \/ exists st', parse_lines st lines = Ok st'
                      /\ truthy (improvement_point st') = true
  else exists st', parse_lines st lines = Ok st'
                   /\ improvement_point st' = [].
Proof.
  revert st. induction lines as [|l lines IH]; intros st Hip Hs.
  - now exists st.
  - cbn [parse_lines reads_bullet_text].
    destruct (parse_line_clean st l Hip) as (st1 & E & Hcs & Hb).
    rewrite E, <- Hb, <- Hcs. cbn [bind].
    pose proof (parse_line_improvements _ _ _ _ Hs E) as Hs1.
    destruct (truthy (improvement_point st1)) eqn:Hip1; cbn [orb].
    + now apply (scan_pending lines st1 s).
    + apply IH; [|exact Hs1].
      destruct (improvement_point st1); [reflexivity|discriminate].
Qed.

Lemma parse_outcome (raw : str) :
  if reads_bullet_text "overview" (split NL raw)
  then _parse_documentation raw = Raise append_error
  else exists d, _parse_documentation raw = Ok d.
Proof.
  pose proof (scan_clean (split NL raw) initial_state [] eq_refl eq_refl)
    as H.
  change (current_section initial_state) with "overview"%string in H.
  unfold _parse_documentation.
  destruct (reads_bullet_text "overview" (split NL raw)).
  - destruct H as [E|(st & E & Hip)]; rewrite E; [reflexivity|].
    cbn [bind]. rewrite Hip.
    destruct (parse_lines_invariant _ initial_state _ [] eq_refl E)
      as [_ Hi].
    now rewrite (dict_append_str _ _ _ _ Hi).
  - destruct H as (st & E & Hip). rewrite E. cbn [bind]. rewrite Hip.
    cbn [truthy bind]. now exists (sections st).
Qed.

(** X1. The parser raises exactly when the scan reads, in the improvements
    section, a bullet with text after the marker: it then raises
    [AttributeError] whatever else the reply holds, and it returns a
    document on every other reply. *)
Theorem parser_raises_iff_bullet_text (raw : str) :
  (reads_bullet_text "overview" (split NL raw) = true
   <-> _parse_documentation raw = Raise append_error)
  /\ (reads_bullet_text "overview" (split NL raw) = false
      <-> exists d, _parse_documentation raw = Ok d).
Proof.
  pose proof (parse_outcome raw) as H.
  destruct (reads_bullet_text "overview" (split NL raw)).
  - rewrite H. split; split; try (intros; reflexivity); try discriminate.
    intros [d Hd]. discriminate Hd.
  - destruct H as [d H]. rewrite H. split; split; try discriminate.
    + intros _. now exists d.
    + intros _. reflexivity.
Qed.

End Failure.

(** ** Trimming *)

Section Trimming.

Lemma lstrip_app_keep (a b : str) (c : char) :
  isspace c = false -> lstrip (a ++ c :: b) = lstrip a ++ c :: b.
Proof.
  intros Hc. induction a as [|x a IH]; simpl.
  - now rewrite Hc.
  - destruct (isspace x); [exact IH|reflexivity].
Qed.

Lemma rstrip_cons_keep (c : char) (t : str) :
  isspace c = false -> rstrip (c :: t) = c :: rstrip t.
Proof.
  intros Hc. unfold rstrip. cbn [rev].
  rewrite (lstrip_app_keep (rev t) [] c Hc), rev_app_distr. reflexivity.
Qed.

Lemma rstrip_idem (t : str) : rstrip (rstrip t) = rstrip t.
Proof.
  destruct (rstrip_trimmed_end t) as [E|(r & c & E & Hc)]; rewrite E.
  - reflexivity.
  - now apply rstrip_snoc.
Qed.

(** The shape of a trimmed text: empty, or kept from a first character
    that is no whitespace. *)
Lemma strip_shape (s : str) :
  strip s = []
  \/ exists c t, lstrip s = c :: t /\ isspace c = false
                 /\ strip s = c :: rstrip t.
Proof.
  unfold strip. destruct (lstrip s) as [|c t] eqn:E.
  - now left.
  - right. exists c, t. pose proof (lstrip_head _ _ _ E) as Hc.
    repeat split; [exact Hc|now apply rstrip_cons_keep].
Qed.

Lemma strip_idem (s : str) : strip (strip s) = strip s.
Proof.
  destruct (strip_shape s) as [E|(c & t & _ & Hc & E)]; rewrite E.
  - reflexivity.
  - unfold strip. rewrite (lstrip_keeps _ _ Hc), (rstrip_cons_keep _ _ Hc).
    now rewrite rstrip_idem.
Qed.

Lemma lstrip_nil (s : str) : lstrip s = [] <-> forallb isspace s = true.
Proof.
  induction s as [|c s IH]; simpl; [tauto|].
  destruct (isspace c); simpl; [exact IH|].
  split; discriminate.
Qed.

(** A text trims to nothing exactly when it is all whitespace. *)
Lemma strip_nil (s : str) : strip s = [] <-> forallb isspace s = true.
Proof.
  rewrite <- lstrip_nil. split.
  - intros H. destruct (strip_shape s) as [_|(c & t & _ & _ & E)].
    + unfold strip in H. destruct (lstrip s) as [|c t] eqn:E;
        [reflexivity|].
      rewrite (rstrip_cons_keep _ _ (lstrip_head _ _ _ E)) in H.
      discriminate H.
    + rewrite E in H. discriminate H.
  - intros H. unfold strip. now rewrite H.
Qed.

Lemma lstrip_incl (s : str) (c : char) : In c (lstrip s) -> In c s.
Proof.
  induction s as [|x s IH]; simpl; [tauto|].
  destruct (isspace x); [|tauto]. intros H. right. now apply IH.
Qed.

Lemma strip_incl (s : str) (c : char) : In c (strip s) -> In c s.
Proof.
  unfold strip, rstrip. intros H.
  apply in_rev, lstrip_incl in H. apply in_rev in H.
  now apply lstrip_incl.
Qed.

Lemma split_lines_no_sep (sep : char) (s : str) :
  Forall (fun l => ~ In sep l) (split sep s).
Proof.
  induction s as [|c s IH]; simpl.
  - constructor; [tauto|constructor].
  - destruct (N.eqb c sep) eqn:E.
    + constructor; [tauto|exact IH].
    + assert (Hc : c <> sep) by now apply N.eqb_neq.
      destruct (split sep s) as [|l ls].
      * constructor; [|constructor]. intros [->|[]]. now apply Hc.
      * inversion IH as [|? ? Hl Hls]; subst.
        constructor; [|exact Hls].
        intros [->|Hin]; [now apply Hc|now apply Hl].
Qed.

(** What a non-empty trimmed line starts and ends with. *)
Lemma kept_line_ends (l : str) :
  truthy l = true -> strip l = l ->
  (exists c m, l = c :: m /\ isspace c = false)
  /\ (exists r d, l = r ++ [d] /\ isspace d = false).
Proof.
  intros Ht Hs. split.
  - destruct (strip_shape l) as [E|(c & t & _ & Hc & E)]; rewrite Hs in E.
    + subst. discriminate.
    + now exists c, (rstrip t).
  - destruct (strip_trimmed_end l) as [E|(r & d & E & Hd)]; rewrite Hs in E.
    + subst. discriminate.
    + now exists r, d.
Qed.

Lemma strip_kept (l : str) :
  truthy (strip l) = true -> ~ In NL l -> kept_line (strip l).
Proof.
  intros Ht Hnl. repeat split; [exact Ht|apply strip_idem|].
  intros H. apply Hnl. now apply strip_incl.
Qed.

End Trimming.

(** ** Blank lines and surrounding whitespace *)

Section Blank.

Lemma parse_line_strip (st : pstate) (l : str) :
  parse_line st (strip l) = parse_line st l.
Proof. unfold parse_line. now rewrite strip_idem. Qed.

Lemma parse_lines_trimmed (lines : list str) (st : pstate) :
  parse_lines st (filter truthy (map strip lines)) = parse_lines st lines.
Proof.
  revert st. induction lines as [|l lines IH]; intros st; [reflexivity|].
  cbn [map filter parse_lines].
  destruct (truthy (strip l)) eqn:Ht.
  - cbn [parse_lines]. rewrite parse_line_strip.
    destruct (parse_line st l); cbn [bind]; [apply IH|reflexivity].
  - rewrite (parse_line_blank _ _ Ht). cbn [bind]. apply IH.
Qed.

(** X2. The result of the parser depends only on the trimmed non-empty
    lines of the reply: blank lines and the whitespace around a line
    change neither the document returned nor whether the parser raises. *)
Theorem parser_ignores_blank_and_padding (raw1 raw2 : str) :
  filter truthy (map strip (split NL raw1))
  = filter truthy (map strip (split NL raw2)) ->
  _parse_documentation raw1 = _parse_documentation raw2.
Proof.
  intros H. unfold _parse_documentation.
  now rewrite <- (parse_lines_trimmed (split NL raw1)), H,
    parse_lines_trimmed.
Qed.

Lemma parser_ignores_blank_and_padding_witness :
  _parse_documentation
    (lit "\n  2. Detailed Function Documentation:  \n\n   foo() does Y. \n\n")
  = _parse_documentation
      (lit "2. Detailed Function Documentation:\nfoo() does Y.").
Proof.
  apply (parser_ignores_blank_and_padding
           (lit "\n  2. Detailed Function Documentation:  \n\n   foo() does Y. \n\n")
           (lit "2. Detailed Function Documentation:\nfoo() does Y.")).
  vm_compute. reflexivity.
Defined.

End Blank.

(** ** Section by section *)

Section Sections.

Lemma dict_get_set_same (d : dict) (k : string) (v : value) :
  dict_get (dict_set d k v) k = Some v.
Proof.
  induction d as [|[k' v'] d IH]; simpl.
  - now rewrite String.eqb_refl.
  - destruct (String.eqb k' k) eqn:E; simpl; rewrite E; [reflexivity|exact IH].
Qed.

Lemma dict_set_set (d : dict) (k : string) (v v' : value) :
  dict_set (dict_set d k v) k v' = dict_set d k v'.
Proof.
  induction d as [|[k0 v0] d IH]; simpl.
  - now rewrite String.eqb_refl.
  - destruct (String.eqb k0 k) eqn:E; simpl; rewrite E;
      [reflexivity|now rewrite IH].
Qed.

Lemma dict_set_get_id (d : dict) (k : string) (v : value) :
  dict_get d k = Some v -> dict_set d k v = d.
Proof.
  induction d as [|[k0 v0] d IH]; simpl; [discriminate|].
  destruct (String.eqb k0 k) eqn:E.
  - now intros [= ->].
  - intros H. now rewrite IH.
Qed.

Lemma parse_lines_app (a b : list str) (st : pstate) :
  parse_lines st (a ++ b)
  = bind (parse_lines st a) (fun st' => parse_lines st' b).
Proof.
  revert st. induction a as [|l a IH]; intros st; [reflexivity|].
  cbn [app parse_lines].
  destruct (parse_line st l); cbn [bind]; [apply IH|reflexivity].
Qed.

(** A content line read in a free-text section goes to its accumulator. *)
Lemma line_body_text (st : pstate) (line acc : str) :
  String.eqb (current_section st) "improvements" = false ->
  dict_get (sections st) (current_section st) = Some (VStr acc) ->
  trimmed_end acc ->
  line_body st line
  = Ok (mkState (dict_set (sections st) (current_section st)
                          (VStr (accumulate acc line)))
                (current_section st) (improvement_point st)).
Proof.
  intros Hcs Hget Hacc. unfold line_body, dict_in.
  rewrite Hcs, andb_false_r, Hget, (endswith_guard _ Hacc). reflexivity.
Qed.

Lemma parse_lines_text (lines : list str) (st : pstate) (acc : str) :
  String.eqb (current_section st) "improvements" = false ->
  dict_get (sections st) (current_section st) = Some (VStr acc) ->
  trimmed_end acc ->
  Forall (fun l => is_header (strip l) = false) lines ->
  parse_lines st lines
  = Ok (mkState
          (dict_set (sections st) (current_section st)
             (VStr (fold_left accumulate
                      (filter truthy (map strip lines)) acc)))
          (current_section st) (improvement_point st)).
Proof.
  revert st acc. induction lines as [|l lines IH];
    intros st acc Hcs Hget Hacc Hall.
  - cbn. rewrite (dict_set_get_id _ _ _ Hget). now destruct st.
  - inversion Hall as [|? ? Hl Hrest]; subst.
    cbn [parse_lines map filter].
    destruct (truthy (strip l)) eqn:Ht.
    + rewrite (parse_line_content _ _ Ht Hl),
        (line_body_text _ _ _ Hcs Hget Hacc).
      cbn [bind fold_left].
      rewrite (IH _ (accumulate acc (strip l))); cbn [sections current_section
        improvement_point]; try assumption.
      * now rewrite dict_set_set.
      * apply dict_get_set_same.
      * unfold accumulate. apply trimmed_end_app;
          [exact Ht|apply strip_trimmed_end].
    + rewrite (parse_line_blank _ _ Ht). cbn [bind]. now apply IH.
Qed.

(** In the improvements section, with nothing pending, lines that are
    neither headers nor bullets leave no trace. *)
Lemma parse_lines_dropped (lines : list str) (st : pstate) :
  current_section st = "improvements"%string ->
  improvement_point st = [] ->
  Forall (fun l => is_header (strip l) = false) lines ->
  Forall (fun l => startswith (lit "-") (strip l) = false) lines ->
  parse_lines st lines = Ok st.
Proof.
  intros Hcs Hip Hh Hd. induction lines as [|l lines IH]; [reflexivity|].
  inversion Hh as [|? ? Hl Hh']; inversion Hd as [|? ? Hdl Hd']; subst.
  cbn [parse_lines].
  destruct (truthy (strip l)) eqn:Ht.
  - rewrite (parse_line_content _ _ Ht Hl). unfold line_body.
    rewrite Hdl, Hcs, Hip. cbn [andb String.eqb truthy bind].
    change (String.eqb "improvements" "improvements") with true.
    cbn [bind]. now apply IH.
  - rewrite (parse_line_blank _ _ Ht). cbn [bind]. now apply IH.
Qed.

(** A header of a free-text section followed by its body. *)
Lemma parse_lines_stage (st : pstate) (p h : str) (name : string)
  (body : list str) :
  In (p, name) header_prefixes ->
  String.eqb name "improvements" = false ->
  startswith p (strip h) = true ->
  dict_get (sections st) name = Some (VStr []) ->
  Forall (fun l => is_header (strip l) = false) body ->
  parse_lines st (h :: body)
  = Ok (mkState (dict_set (sections st) name (VStr (section_text body)))
                name (improvement_point st)).
Proof.
  intros Hin Hname Hp Hget Hbody. cbn [parse_lines].
  rewrite (parse_line_header st h p name Hin Hp). cbn [bind].
  rewrite (parse_lines_text body (set_section st name) []);
    cbn [set_section sections current_section improvement_point];
    try assumption; [|now left].
  unfold section_text. rewrite fold_accumulate_nil; [reflexivity|].
  apply Forall_forall. intros x Hx. apply filter_In in Hx. tauto.
Qed.

End Sections.

(** ** A reply in the expected outline *)

Section Outline.

Lemma body_lines_content (b : list str) :
  Forall body_line b -> Forall (fun l => is_header (strip l) = false) b.
Proof. apply Forall_impl. now intros l [_ H]. Qed.

Lemma body_lines_no_nl (b : list str) :
  Forall body_line b -> Forall (fun l => ~ In NL l) b.
Proof. apply Forall_impl. now intros l [H _]. Qed.

(** Boolean tests for the side conditions, to settle them by evaluation. *)
Lemma no_nl_check (l : str) : existsb (N.eqb NL) l = false -> ~ In NL l.
Proof.
  intros H Hin.
  assert (E : existsb (N.eqb NL) l = true).
  { apply existsb_exists. exists NL. split; [exact Hin|apply N.eqb_refl]. }
  rewrite E in H. discriminate H.
Qed.

Lemma header_line_check (p h : str) :
  (negb (existsb (N.eqb NL) h) && startswith p (strip h))%bool = true ->
  header_line p h.
Proof.
  intros H. apply andb_prop in H as [Hn Hp]. split; [|exact Hp].
  apply no_nl_check. now apply negb_true_iff.
Qed.

Lemma body_lines_check (b : list str) :
  forallb (fun l => negb (existsb (N.eqb NL) l)
                    && negb (is_header (strip l)))%bool b = true ->
  Forall body_line b.
Proof.
  intros H. apply Forall_forall. intros l Hl.
  apply (proj1 (forallb_forall _ _) H) in Hl.
  apply andb_prop in Hl as [Hn Hh]. split.
  - apply no_nl_check. now apply negb_true_iff.
  - now apply negb_true_iff.
Qed.

Lemma no_bullet_check (b : list str) :
  forallb (fun l => negb (startswith (lit "-") (strip l))) b = true ->
  Forall (fun l => startswith (lit "-") (strip l) = false) b.
Proof.
  intros H. apply Forall_forall. intros l Hl.
  apply (proj1 (forallb_forall _ _) H) in Hl. now apply negb_true_iff.
Qed.

(** X3. A reply made of the five numbered headers in order, each followed
    by body lines that are no headers, is recovered field by field: each of
    [overview], [functions], [parameters] and [examples] is the text of its
    own body, trimmed non-empty lines joined by line feeds, no header line
    appears in any field, and a fifth body without bullets leaves
    [improvements] empty. *)
Theorem outline_reply_recovered (h1 h2 h3 h4 h5 : str)
  (b1 b2 b3 b4 b5 : list str) :
  header_line (lit "1. Brief Overview:") h1 ->
  header_line (lit "2. Detailed Function Documentation:") h2 ->
  header_line (lit "3. Parameters and Return Values:") h3 ->
  header_line (lit "4. Usage Examples:") h4 ->
  header_line (lit "5. Any potential improvements") h5 ->
  Forall body_line b1 -> Forall body_line b2 -> Forall body_line b3 ->
  Forall body_line b4 -> Forall body_line b5 ->
  Forall (fun l => startswith (lit "-") (strip l) = false) b5 ->
  _parse_documentation
    (join (lit "\n")
       ((h1 :: b1) ++ (h2 :: b2) ++ (h3 :: b3) ++ (h4 :: b4) ++ h5 :: b5))
  = Ok [ ("overview", VStr (section_text b1));
         ("functions", VStr (section_text b2));
         ("parameters", VStr (section_text b3));
         ("examples", VStr (section_text b4));
         ("improvements", VStr []) ]%string.
Proof.
  intros [N1 H1] [N2 H2] [N3 H3] [N4 H4] [N5 H5] B1 B2 B3 B4 B5 D5.
  unfold _parse_documentation. rewrite lit_nl, split_join.
  - rewrite parse_lines_app.
    rewrite (parse_lines_stage initial_state _ h1 "overview" b1
               (or_introl eq_refl) eq_refl H1);
      [|reflexivity|now apply body_lines_content].
    cbn [bind sections improvement_point]. rewrite parse_lines_app.
    rewrite (parse_lines_stage _ _ h2 "functions" b2
               (or_intror (or_introl eq_refl)) eq_refl H2);
      [|reflexivity|now apply body_lines_content].
    cbn [bind sections improvement_point]. rewrite parse_lines_app.
    rewrite (parse_lines_stage _ _ h3 "parameters" b3
               (or_intror (or_intror (or_introl eq_refl))) eq_refl H3);
      [|reflexivity|now apply body_lines_content].
    cbn [bind sections improvement_point]. rewrite parse_lines_app.
    rewrite (parse_lines_stage _ _ h4 "examples" b4
               (or_intror (or_intror (or_intror (or_introl eq_refl))))
               eq_refl H4);
      [|reflexivity|now apply body_lines_content].
    cbn [bind sections improvement_point parse_lines].
    rewrite (parse_line_header _ h5 _ "improvements"
               (or_intror (or_intror (or_intror (or_intror
                  (or_introl eq_refl))))) H5).
    cbn [bind]. rewrite parse_lines_dropped;
      [reflexivity|reflexivity|reflexivity| |exact D5].
    now apply body_lines_content.
  - discriminate.
  - repeat (apply Forall_app; split);
      repeat (apply Forall_cons; [assumption|]);
      try now apply body_lines_no_nl.
Qed.

Lemma outline_reply_recovered_witness :
  _parse_documentation
    (join (lit "\n")
       ((lit "1. Brief Overview:" :: [lit "Does X."; lit ""])
        ++ (lit "2. Detailed Function Documentation:"
            :: [lit "  foo() does Y."; lit "  bar() does Z."])
        ++ (lit "3. Parameters and Return Values:" :: [])
        ++ (lit "4. Usage Examples:" :: [lit "foo()"])
        ++ lit "5. Any potential improvements or considerations:"
           :: [lit "None needed."]))
  = Ok [ ("overview", VStr (section_text [lit "Does X."; lit ""]));
         ("functions",
          VStr (section_text [lit "  foo() does Y."; lit "  bar() does Z."]));
         ("parameters", VStr (section_text []));
         ("examples", VStr (section_text [lit "foo()"]));
         ("improvements", VStr []) ]%string.
Proof.
  apply outline_reply_recovered;
    first [ apply header_line_check | apply body_lines_check
          | apply no_bullet_check ];
    vm_compute; reflexivity.
Defined.

End Outline.

(** ** The fields of a returned document *)

Section Fields.

Lemma dict_set_values (P : value -> Prop) (d : dict) (k : string)
  (v : value) :
  Forall (fun kv => P (snd kv)) d -> P v ->
  Forall (fun kv => P (snd kv)) (dict_set d k v).
Proof.
  intros Hd Hv. induction Hd as [|[k' v'] d Hkv Hd IH]; simpl.
  - constructor; [exact Hv|constructor].
  - destruct (String.eqb k' k); constructor; assumption.
Qed.

Lemma dict_get_values (P : value -> Prop) (d : dict) (k : string)
  (v : value) :
  Forall (fun kv => P (snd kv)) d -> dict_get d k = Some v -> P v.
Proof.
  intros Hd. induction Hd as [|[k' v'] d Hkv Hd IH]; simpl; [discriminate|].
  destruct (String.eqb k' k); [|exact IH]. now intros [= <-].
Qed.

Lemma join_snoc (sep : str) (ls : list str) (l : str) :
  ls <> [] -> join sep (ls ++ [l]) = join sep ls ++ sep ++ l.
Proof.
  induction ls as [|x ls IH]; [congruence|]. intros _.
  destruct ls as [|y ls]; [reflexivity|].
  change (join sep ((x :: y :: ls) ++ [l]))
    with (x ++ sep ++ join sep ((y :: ls) ++ [l])).
  rewrite IH by discriminate.
  change (join sep (x :: y :: ls)) with (x ++ sep ++ join sep (y :: ls)).
  now rewrite <- !app_assoc.
Qed.

Lemma joined_text_nil : joined_text [].
Proof. exists []. split; [constructor|reflexivity]. Qed.

Lemma joined_text_trimmed_end (x : str) : joined_text x -> trimmed_end x.
Proof.
  intros (ls & Hls & ->).
  destruct ls as [|l0 ls0]; [now left|].
  destruct (@exists_last _ (l0 :: ls0)) as (ls' & l & E); [discriminate|].
  rewrite E in *. apply Forall_app in Hls as [_ Hl].
  inversion Hl as [|? ? [(Ht & Hs & _) _] _]; subst.
  destruct (kept_line_ends l Ht Hs) as [_ (r & d & -> & Hd)].
  right. destruct ls' as [|y ls'].
  - now exists r, d.
  - rewrite join_snoc by discriminate.
    exists (join [NL] (y :: ls') ++ [NL] ++ r), d.
    split; [now rewrite <- !app_assoc|exact Hd].
Qed.

Lemma joined_text_truthy (l : str) (ls : list str) :
  field_line l -> truthy (join [NL] (l :: ls)) = true.
Proof.
  intros [(Ht & _) _]. destruct l; [discriminate|].
  destruct ls; reflexivity.
Qed.

Lemma joined_text_accumulate (acc line : str) :
  joined_text acc -> field_line line -> joined_text (accumulate acc line).
Proof.
  intros (ls & Hls & ->) Hline. destruct ls as [|l ls].
  - exists [line]. split; [now constructor|reflexivity].
  - exists ((l :: ls) ++ [line]). split.
    + apply Forall_app. split; [exact Hls|now constructor].
    + unfold accumulate. inversion Hls; subst.
      rewrite joined_text_truthy by assumption.
      rewrite join_snoc by discriminate.
      rewrite lit_nl. now rewrite <- !app_assoc.
Qed.

Lemma line_body_fields (st st' : pstate) (line : str) :
  Forall (fun kv => field_value (snd kv)) (sections st) ->
  field_line line ->
  line_body st line = Ok st' ->
  Forall (fun kv => field_value (snd kv)) (sections st').
Proof.
  intros Hd Hline. unfold line_body.
  destruct (startswith (lit "-") line
            && String.eqb (current_section st) "improvements")%bool.
  - destruct (truthy (improvement_point st)); [|now intros [= <-]].
    unfold dict_append.
    destruct (dict_get (sections st) "improvements") as [[s|l]|] eqn:E;
      try discriminate.
    destruct (dict_get_values _ _ _ _ Hd E) as (x & Hx & _).
    discriminate Hx.
  - destruct (String.eqb (current_section st) "improvements").
    + destruct (truthy (improvement_point st)); now intros [= <-].
    + destruct (dict_in (current_section st) (sections st));
        [|now intros [= <-]].
      destruct (dict_get (sections st) (current_section st))
        as [[acc|?]|] eqn:E; try now intros [= <-].
      destruct (dict_get_values _ _ _ _ Hd E) as (x & [= <-] & Hj).
      rewrite (endswith_guard _ (joined_text_trimmed_end _ Hj)).
      intros [= <-]. cbn [sections]. apply dict_set_values; [exact Hd|].
      eexists. split; [reflexivity|].
      now apply (joined_text_accumulate acc line).
Qed.

Lemma parse_line_fields (st st' : pstate) (l : str) :
  Forall (fun kv => field_value (snd kv)) (sections st) ->
  ~ In NL l ->
  parse_line st l = Ok st' ->
  Forall (fun kv => field_value (snd kv)) (sections st').
Proof.
  intros Hd Hnl.
  destruct (parse_line_split st l)
    as [(_ & E & _)|[(_ & _ & E)|(Ht & Hh & E & _)]]; rewrite E.
  - now intros [= <-].
  - now intros [= <-].
  - apply line_body_fields; [exact Hd|].
    split; [now apply strip_kept|exact Hh].
Qed.

Lemma parse_lines_fields (lines : list str) (st st' : pstate) :
  Forall (fun kv => field_value (snd kv)) (sections st) ->
  Forall (fun l => ~ In NL l) lines ->
  parse_lines st lines = Ok st' ->
  Forall (fun kv => field_value (snd kv)) (sections st').
Proof.
  revert st. induction lines as [|l lines IH]; intros st Hd Hall; simpl.
  - now intros [= <-].
  - inversion Hall as [|? ? Hl Hrest]; subst.
    destruct (parse_line st l) as [st1|e] eqn:E; [|discriminate].
    cbn [bind]. apply IH; [|exact Hrest].
    eapply parse_line_fields; eassumption.
Qed.

Lemma strip_fixed_ends (x : str) :
  (exists c m, x = c :: m /\ isspace c = false) -> trimmed_end x ->
  strip x = x.
Proof.
  intros (c & m & E1 & Hc) [E2|(r & d & E2 & Hd)].
  - rewrite E2 in E1. discriminate E1.
  - unfold strip.
    assert (El : lstrip x = x) by (rewrite E1; now apply lstrip_keeps).
    rewrite El, E2. now apply rstrip_snoc.
Qed.

Lemma joined_text_split (l : str) (ls : list str) :
  Forall field_line (l :: ls) -> split NL (join [NL] (l :: ls)) = l :: ls.
Proof.
  intros H. apply split_join; [discriminate|].
  eapply Forall_impl; [|exact H]. now intros x [(_ & _ & Hnl) _].
Qed.

Lemma joined_text_clean (x : str) : joined_text x -> clean_text x.
Proof.
  intros Hj. pose proof (joined_text_trimmed_end _ Hj) as Hend.
  destruct Hj as (ls & Hls & ->). destruct ls as [|l ls].
  - split; [reflexivity|now left].
  - split.
    + apply strip_fixed_ends; [|exact Hend].
      inversion Hls as [|? ? [(Ht & Hs & _) _] _]; subst.
      destruct (kept_line_ends l Ht Hs) as [(c & m & -> & Hc) _].
      exists c. destruct ls; eexists; (split; [reflexivity|exact Hc]).
    + right. rewrite (joined_text_split _ _ Hls).
      eapply Forall_impl; [|exact Hls].
      now intros y [(Ht & Hs & _) Hh].
Qed.

(** What the parser returns when it returns. *)
Lemma parsed_fields (raw : str) (d : dict) :
  _parse_documentation raw = Ok d ->
  exists o f p e,
    d = [ ("overview", VStr o);
          ("functions", VStr f);
          ("parameters", VStr p);
          ("examples", VStr e);
          ("improvements", VStr []) ]%string
    /\ joined_text o /\ joined_text f /\ joined_text p /\ joined_text e.
Proof.
  intros H. destruct (parse_documentation_ok _ _ H) as [Hk Hi].
  unfold _parse_documentation in H.
  destruct (parse_lines initial_state (split NL raw)) as [st|e0] eqn:E;
    [|discriminate].
  cbn [bind] in H.
  assert (Hd : Forall (fun kv => field_value (snd kv)) d).
  { assert (Hst : Forall (fun kv => field_value (snd kv)) (sections st)).
    { apply (parse_lines_fields (split NL raw) initial_state);
        [|apply split_lines_no_sep|exact E].
      repeat constructor; exists []; (split; [reflexivity|]);
        apply joined_text_nil. }
    destruct (truthy (improvement_point st)).
    - destruct (dict_append (sections st) "improvements"
                  (strip (improvement_point st))) as [secs|e0] eqn:Ea;
        [|discriminate].
      unfold dict_append in Ea.
      destruct (dict_get (sections st) "improvements") as [[s|l]|] eqn:Eg;
        try discriminate.
      destruct (dict_get_values _ _ _ _ Hst Eg) as (x & Hx & _).
      discriminate Hx.
    - cbn [bind] in H. now injection H as <-. }
  unfold dict_keys, section_keys in Hk.
  destruct d as [|[k1 v1] [|[k2 v2] [|[k3 v3] [|[k4 v4] [|[k5 v5] [|]]]]]];
    try discriminate Hk.
  cbn [map fst] in Hk. injection Hk as -> -> -> -> ->.
  change (dict_get _ "improvements") with (Some v5) in Hi.
  injection Hi as ->.
  inversion Hd as [|? ? (o & E1 & J1) Hd1]; subst.
  inversion Hd1 as [|? ? (f & E2 & J2) Hd2]; subst.
  inversion Hd2 as [|? ? (p & E3 & J3) Hd3]; subst.
  inversion Hd3 as [|? ? (e & E4 & J4) _]; subst.
  cbn [snd] in *. subst. now exists o, f, p, e.
Qed.

End Fields.

(** ** Documents the parser returns *)

Section Documents.

(** X4. Every document the parser returns has exactly the five section
    keys in order, all with string values; [improvements] is the empty
    string, never a list, and each of the four free-text fields has no
    surrounding whitespace and, when non-empty, only lines that are
    non-empty, trimmed and no headers. *)
Theorem parsed_document_shape (raw : str) (d : dict) :
  _parse_documentation raw = Ok d ->
  exists o f p e,
    d = [ ("overview", VStr o);
          ("functions", VStr f);
          ("parameters", VStr p);
          ("examples", VStr e);
          ("improvements", VStr []) ]%string
    /\ clean_text o /\ clean_text f /\ clean_text p /\ clean_text e.
Proof.
  intros H.
  destruct (parsed_fields raw d H) as (o & f & p & e & E & Jo & Jf & Jp & Je).
  exists o, f, p, e. repeat split; try exact E;
    try (apply joined_text_clean; assumption);
    apply joined_text_clean; assumption.
Qed.

Lemma parsed_document_shape_witness :
  exists o f p e,
    [ ("overview", VStr (lit "Does X."));
      ("functions", VStr (lit "foo() does Y.\nbar() does Z."));
      ("parameters", VStr []);
      ("examples", VStr []);
      ("improvements", VStr []) ]%string
    = [ ("overview", VStr o);
        ("functions", VStr f);
        ("parameters", VStr p);
        ("examples", VStr e);
        ("improvements", VStr []) ]%string
    /\ clean_text o /\ clean_text f /\ clean_text p /\ clean_text e.
Proof.
  apply (parsed_document_shape
           (lit " Does X.\n\n2. Detailed Function Documentation:\n foo() does Y. \nbar() does Z.")).
  vm_compute. reflexivity.
Defined.

Lemma parsed_values (raw : str) (d : dict) :
  _parse_documentation raw = Ok d ->
  Forall (fun kv => field_value (snd kv)) d.
Proof.
  intros H.
  destruct (parsed_fields raw d H) as (o & f & p & e & -> & Jo & Jf & Jp & Je).
  repeat constructor; cbn [snd]; eexists; (split; [reflexivity|]);
    try assumption.
  apply joined_text_nil.
Qed.

Lemma parse_joined_text (x : str) :
  joined_text x -> _parse_documentation x = Ok (overview_only x).
Proof.
  intros (ls & Hls & ->). destruct ls as [|l ls]; [reflexivity|].
  rewrite parse_without_headers; rewrite (joined_text_split _ _ Hls).
  - rewrite (map_fixed strip (l :: ls)), (filter_all truthy (l :: ls)).
    + rewrite lit_nl. reflexivity.
    + eapply Forall_impl; [|exact Hls]. now intros y [(Ht & _) _].
    + eapply Forall_impl; [|exact Hls]. now intros y [(_ & Hs & _) _].
  - eapply Forall_impl; [|exact Hls]. intros y [(_ & Hs & _) Hh].
    now rewrite Hs.
Qed.

(** X5. Every field of a returned document is a fixed point of the parser:
    parsed again on its own, the text of the field comes back unchanged as
    [overview], with nothing in the other fields. *)
Theorem parsed_field_is_fixed_point (raw : str) (d : dict) (k : string)
  (x : str) :
  _parse_documentation raw = Ok d ->
  dict_get d k = Some (VStr x) ->
  _parse_documentation x = Ok (overview_only x).
Proof.
  intros H Hget.
  destruct (dict_get_values _ _ _ _ (parsed_values raw d H) Hget)
    as (y & [= <-] & Hj).
  now apply parse_joined_text.
Qed.

Lemma parsed_field_is_fixed_point_witness :
  _parse_documentation (lit "foo() does Y.\nbar() does Z.")
  = Ok (overview_only (lit "foo() does Y.\nbar() does Z.")).
Proof.
  apply (parsed_field_is_fixed_point
           (lit "2. Detailed Function Documentation:\n foo() does Y. \n\nbar() does Z.")
           [ ("overview", VStr []);
             ("functions", VStr (lit "foo() does Y.\nbar() does Z."));
             ("parameters", VStr []);
             ("examples", VStr []);
             ("improvements", VStr []) ]%string
           "functions");
    vm_compute; reflexivity.
Defined.

Lemma bind_ok {A B} (a : A) (k : A -> result B) : bind (Ok a) k = k a.
Proof. reflexivity. Qed.

Lemma strip_empty : strip [] = [].
Proof. reflexivity. Qed.

Lemma field_strip_get (d : dict) (k : string) (x : str) :
  dict_get d k = Some (VStr x) -> strip x = x -> field_strip d k = Ok x.
Proof. intros H Hs. unfold field_strip. now rewrite H, Hs. Qed.

Lemma save_fields (o f p e docstring code : str) :
  strip o = o -> strip f = f -> strip p = p -> strip e = e ->
  save_documentation_txt
    [ ("overview", VStr o);
      ("functions", VStr f);
      ("parameters", VStr p);
      ("examples", VStr e);
      ("improvements", VStr []) ]%string docstring code
  = Ok (lit "=== Original Code ===\n\n" ++ code
        ++ lit "\n\n=== Documentation ===\n\n"
        ++ lit "Overview:\n" ++ o
        ++ lit "\n\nFunctions:\n" ++ f
        ++ lit "\n\nParameters:\n" ++ p
        ++ lit "\n\nExamples:\n" ++ e
        ++ lit "\n\nImprovements:\n"
        ++ lit "\n\n=== Generated Docstring ===\n\n" ++ docstring).
Proof.
  intros So Sf Sp Se. unfold save_documentation_txt.
  rewrite (field_strip_get _ "overview" o); [|reflexivity|exact So].
  rewrite (field_strip_get _ "functions" f); [|reflexivity|exact Sf].
  rewrite (field_strip_get _ "parameters" p); [|reflexivity|exact Sp].
  rewrite (field_strip_get _ "examples" e); [|reflexivity|exact Se].
  match goal with
  | |- context [dict_get ?d "improvements"] =>
      assert (Hi : dict_get d "improvements" = Some (VStr []))
        by reflexivity;
      rewrite Hi
  end.
  rewrite !bind_ok, strip_empty, app_nil_l. reflexivity.
Qed.

End Documents.

(** ** From the reply to the exit status *)

Section Drivers.

Variable create : request -> outcome.

Lemma value_of_bind {A B} (m : io A) (k : A -> io B) :
  value_of (io_bind m k) = value_of (k (value_of m)).
Proof.
  unfold io_bind, value_of. destruct m as [log a]. cbn [snd].
  now destruct (k a).
Qed.

Lemma append_error_message :
  lit "Failed to generate documentation: " ++ str_of_exn append_error
  = lit "Failed to generate documentation: 'str' object has no attribute 'append'".
Proof. vm_compute. reflexivity. Qed.

(** X7. When the model replies with a text, [generate_documentation]
    returns the error document exactly when the reply has a bullet with
    text in its improvements section, and the message then is the parser's
    [AttributeError]; for every other reply it returns the document the
    parser builds, which is no error document. *)
Theorem generation_outcome_by_reply (code language text : str) :
  create (documentation_request code language) = Completion (Some text) ->
  let d := value_of (generate_documentation create code language) in
  if reads_bullet_text "overview" (split NL text)
  then d = [ ("error"%string,
              VStr (lit "Failed to generate documentation: 'str' object has no attribute 'append'")) ]
  else _parse_documentation text = Ok d /\ is_error_document d = false.
Proof.
  intros H. cbv zeta. rewrite generate_documentation_value, H.
  pose proof (parse_outcome text) as Hp.
  destruct (reads_bullet_text "overview" (split NL text)).
  - rewrite Hp. unfold error_document. now rewrite append_error_message.
  - destruct Hp as [d Hd]. rewrite Hd. split; [reflexivity|].
    destruct (parsed_fields text d Hd) as (o & f & p & e & -> & _).
    reflexivity.
Qed.

Lemma save_error_document (e : exn) (docstring code : str) :
  save_documentation_txt (error_document e) docstring code
  = Raise (KeyError "overview").
Proof. reflexivity. Qed.

Lemma error_document_is_error (e : exn) :
  is_error_document (error_document e) = true.
Proof. reflexivity. Qed.

(** The documentation call leaves either an error document, which cannot
    be saved, or a parsed document, which can. *)
Lemma save_generated (code language docstring : str) :
  let d := value_of (generate_documentation create code language) in
  (is_error_document d = true
   /\ save_documentation_txt d docstring code = Raise (KeyError "overview"))
  \/ (is_error_document d = false
      /\ exists t, save_documentation_txt d docstring code = Ok t).
Proof.
  cbv zeta. rewrite generate_documentation_value.
  destruct (create (documentation_request code language)) as [[text|]|e];
    try (left; split;
         [apply error_document_is_error|apply save_error_document]).
  destruct (_parse_documentation text) as [d|e] eqn:E;
    [|left; split;
      [apply error_document_is_error|apply save_error_document]].
  right.
  destruct (parsed_fields text d E) as (o & f & p & e & -> & Jo & Jf & Jp & Je).
  split; [reflexivity|]. eexists.
  apply save_fields; now apply joined_text_clean.
Qed.

(** X8. The exit status of the [--file] driver: 0 exactly when the
    credential is set and non-empty, the file could be read and the
    documentation call did not end in the error document; 1 otherwise.
    A failed docstring call does not change the status, and an error
    document gives 1 because saving it raises [KeyError]. *)
Theorem file_mode_exit_status (env_api_key : option str)
  (read : result str) (language : str) :
  value_of (main_file create env_api_key read language)
  = match env_api_key, read with
    | Some key, Ok code =>
        if truthy key
           && negb (is_error_document
                      (value_of (generate_documentation create code
                                   language)))
        then 0%N else 1%N
    | _, _ => 1%N
    end.
Proof.
  unfold main_file, load_config.
  destruct env_api_key as [key|]; [|now destruct read].
  destruct (truthy key); [|now destruct read].
  destruct read as [code|e]; [|reflexivity].
  cbn [load_code_from_file andb]. rewrite !value_of_bind.
  cbn [ret value_of snd].
  destruct (save_generated code language
              (value_of (generate_docstring create code (lit "google"))))
    as [[He Hs]|[He [t Hs]]];
    rewrite He, Hs; reflexivity.
Qed.

End Drivers.

Section Validation.

(** X9. [validate_code_input] rejects a text exactly when every one of its
    characters is whitespace, the empty text included, with the message
    [Code input cannot be empty]; any text with one other character is
    accepted with an empty message. *)
Theorem validate_code_input_whitespace (code : str) :
  validate_code_input code
  = if forallb isspace code
    then (false, lit "Code input cannot be empty")
    else (true, []).
Proof.
  unfold validate_code_input.
  destruct (forallb isspace code) eqn:E.
  - apply strip_nil in E. now rewrite E.
  - destruct (strip code) eqn:Es; [|reflexivity].
    apply strip_nil in Es. rewrite Es in E. discriminate E.
Qed.

End Validation.

Lemma generation_outcome_by_reply_witness :
  value_of (generate_documentation
              (fun _ => Completion (Some (lit "Improvements:\n- Add tests")))
              (lit "def f(): pass") (lit "python"))
  = [ ("error"%string,
       VStr (lit "Failed to generate documentation: 'str' object has no attribute 'append'")) ].
Proof.
  exact (generation_outcome_by_reply
           (fun _ => Completion (Some (lit "Improvements:\n- Add tests")))
           (lit "def f(): pass") (lit "python")
           (lit "Improvements:\n- Add tests") eq_refl).
Defined.

(** ** The interactive prompts *)

Section PromptFacts.

Variable lower : str -> str.
Variable languages_order styles_order : list str.

(** On ASCII text [str.lower] maps the capital letters and nothing else. *)
Hypothesis lower_ascii :
  forall s, is_ascii s = true -> lower s = map ascii_lower s.

Lemma str_eqb_eq (a b : str) : str_eqb a b = true <-> a = b.
Proof.
  revert b. induction a as [|x a IH]; intros [|y b]; simpl;
    try (split; [discriminate|congruence]); [tauto|].
  rewrite andb_true_iff, N.eqb_eq, IH. split.
  - now intros [-> ->].
  - now intros [= -> ->].
Qed.

Lemma str_eqb_neq (a b : str) : a <> b -> str_eqb a b = false.
Proof.
  intros H. destruct (str_eqb a b) eqn:E; [|reflexivity].
  apply str_eqb_eq in E. contradiction.
Qed.

Lemma member_check (x : str) (l : list str) :
  In x l -> existsb (str_eqb x) l = true.
Proof.
  intros H. apply existsb_exists. exists x. split; [exact H|].
  now apply str_eqb_eq.
Qed.

(** X10. A docstring style typed with capital letters passes
    [validate_style], which compares in lower case, and yet does not select
    its phrase in the prompt of [generate_docstring], which looks the style
    up as typed: the prompt then asks for standard docstrings. *)
Theorem accepted_style_without_its_phrase (code style : str) :
  is_ascii style = true ->
  In (map ascii_lower style) valid_styles ->
  map ascii_lower style <> style ->
  fst (validate_style lower styles_order style) = true
  /\ user_content (docstring_request code style)
     = lit "Write a comprehensive docstring for this function "
       ++ lit "using standard docstrings"
       ++ lit ":\n        \n        " ++ code.
Proof.
  intros Hascii Hin Hcase. split.
  - unfold validate_style. rewrite (lower_ascii _ Hascii).
    now rewrite (member_check _ _ Hin).
  - assert (Hs : styles_get style = lit "using standard docstrings").
    { unfold styles_get.
      rewrite !str_eqb_neq; [reflexivity| | |];
        intros ->; apply Hcase; reflexivity. }
    unfold docstring_request. cbn [user_content]. now rewrite Hs.
Qed.

(** X11. The two loops of the menu that ask for a style and for a language
    hand back only an answer that passed its validator, so no other style
    or language reaches the model; the answer is never empty, a blank line
    standing for the default. *)
Theorem prompts_return_valid_answers (stdin : list keyboard) :
  (forall style rest,
     ask_style lower styles_order stdin = Typed style rest ->
     fst (validate_style lower styles_order style) = true
     /\ truthy style = true)
  /\ (forall language rest,
        ask_language lower languages_order stdin = Typed language rest ->
        fst (validate_language lower languages_order language) = true
        /\ truthy language = true).
Proof.
  split.
  - induction stdin as [|[answer|] stdin IH]; intros style rest;
      cbn [ask_style]; try discriminate.
    destruct (fst (validate_style lower styles_order
                     (if truthy (strip answer) then strip answer
                      else lit "google"))) eqn:E; [|apply IH].
    intros [= <- <-]. split; [exact E|].
    now destruct (truthy (strip answer)) eqn:Ht.
  - induction stdin as [|[answer|] stdin IH]; intros language rest;
      cbn [ask_language]; try discriminate.
    destruct (fst (validate_language lower languages_order
                     (if truthy (strip answer) then strip answer
                      else lit "python"))) eqn:E; [|apply IH].
    intros [= <- <-]. split; [exact E|].
    now destruct (truthy (strip answer)) eqn:Ht.
Qed.

Lemma read_code_lines (ls : list str) (tail : list keyboard)
  (acc : list str) :
  Forall (fun l => is_done lower l = false) ls ->
  read_code lower (map Line ls ++ tail) acc
  = read_code lower tail (acc ++ ls).
Proof.
  revert acc. induction ls as [|l ls IH]; intros acc Hall.
  - now rewrite app_nil_r.
  - inversion Hall as [|? ? Hl Hrest]; subst.
    cbn [map app read_code]. rewrite Hl, IH by exact Hrest.
    now rewrite <- app_assoc.
Qed.

Lemma forallb_isspace_join (ls : list str) :
  forallb isspace (join [NL] ls) = forallb (forallb isspace) ls.
Proof.
  induction ls as [|l ls IH]; [reflexivity|].
  destruct ls as [|x ls].
  - cbn [join forallb]. now rewrite andb_true_r.
  - change (join [NL] (l :: x :: ls)) with (l ++ [NL] ++ join [NL] (x :: ls)).
    rewrite !forallb_app, IH. reflexivity.
Qed.

(** X12. The code pasted at the prompt is the lines typed before the first
    line that reads [done], or before the end of the input, joined by line
    feeds; the terminator is not part of it and what follows it is left
    unread. [validate_code_input] rejects that text exactly when every
    typed line is blank. *)
Theorem pasted_code_is_joined_lines (ls : list str) (t : str)
  (rest : list keyboard) :
  Forall (fun l => is_done lower l = false) ls ->
  is_done lower t = true ->
  get_multiline_input_windows lower (map Line ls ++ Line t :: rest)
  = Typed (join (lit "\n") ls) rest
  /\ get_multiline_input_windows lower (map Line ls)
     = Typed (join (lit "\n") ls) []
  /\ fst (validate_code_input (join (lit "\n") ls))
     = negb (forallb (forallb isspace) ls).
Proof.
  intros Hls Ht. unfold get_multiline_input_windows. repeat split.
  - rewrite (read_code_lines ls _ [] Hls). cbn [app read_code].
    now rewrite Ht.
  - rewrite <- (app_nil_r (map Line ls)).
    now rewrite (read_code_lines ls [] [] Hls).
  - rewrite lit_nl, <- forallb_isspace_join. unfold validate_code_input.
    destruct (strip (join [NL] ls)) eqn:Es.
    + apply strip_nil in Es. now rewrite Es.
    + destruct (forallb isspace (join [NL] ls)) eqn:E; [|reflexivity].
      apply strip_nil in E. rewrite E in Es. discriminate Es.
Qed.

End PromptFacts.

Lemma accepted_style_without_its_phrase_witness :
  fst (validate_style (map ascii_lower) [] (lit "Google")) = true
  /\ user_content (docstring_request (lit "def f(): pass") (lit "Google"))
     = lit "Write a comprehensive docstring for this function "
       ++ lit "using standard docstrings"
       ++ lit ":\n        \n        " ++ lit "def f(): pass".
Proof.
  apply (accepted_style_without_its_phrase (map ascii_lower) []
           (fun s _ => eq_refl) (lit "def f(): pass") (lit "Google")).
  - reflexivity.
  - vm_compute. tauto.
  - vm_compute. discriminate.
Defined.

Lemma pasted_code_is_joined_lines_witness :
  get_multiline_input_windows (map ascii_lower)
    (map Line [lit "def f():"; lit "    pass"]
     ++ Line (lit " Done ") :: [Line (lit "python")])
  = Typed (join (lit "\n") [lit "def f():"; lit "    pass"])
          [Line (lit "python")]
  /\ get_multiline_input_windows (map ascii_lower)
       (map Line [lit "def f():"; lit "    pass"])
     = Typed (join (lit "\n") [lit "def f():"; lit "    pass"]) []
  /\ fst (validate_code_input
            (join (lit "\n") [lit "def f():"; lit "    pass"]))
     = negb (forallb (forallb isspace) [lit "def f():"; lit "    pass"]).
Proof.
  apply (pasted_code_is_joined_lines (map ascii_lower)
           [lit "def f():"; lit "    pass"] (lit " Done ")
           [Line (lit "python")]).
  - repeat constructor.
  - reflexivity.
Defined.

Lemma prompts_return_valid_answers_witness :
  fst (validate_style (map ascii_lower) [] (lit "NumPy")) = true
  /\ truthy (lit "NumPy") = true.
Proof.
  apply (proj1 (prompts_return_valid_answers (map ascii_lower) [] []
                  [Line (lit "pep257"); Line (lit "  NumPy ")])
           (lit "NumPy") []).
  reflexivity.
Defined.

(** ** Which lines end in which field *)

Section Attribution.

Lemma lines_of_truthy (k cs : string) (lines : list str) :
  Forall (fun l => truthy l = true) (lines_of k cs lines).
Proof.
  revert cs. induction lines as [|l lines IH]; intros cs; [constructor|].
  cbn [lines_of]. apply Forall_app. split; [|apply IH].
  destruct (truthy (strip l)) eqn:Ht; cbn [andb]; [|constructor].
  destruct (negb (is_header (strip l)) && String.eqb cs k)%bool;
    [|constructor].
  constructor; [exact Ht|constructor].
Qed.

(** One content line and the accumulator of a free-text field. *)
Lemma line_body_field (st st' : pstate) (line : str) (k : string)
  (acc : str) :
  String.eqb k "improvements" = false ->
  dict_get (sections st) k = Some (VStr acc) ->
  trimmed_end acc ->
  line_body st line = Ok st' ->
  current_section st' = current_section st
  /\ dict_get (sections st') k
     = Some (VStr (if String.eqb (current_section st) k
                   then accumulate acc line else acc)).
Proof.
  intros Hk Hget Hacc. unfold line_body.
  destruct (String.eqb (current_section st) k) eqn:Hcs.
  - apply String.eqb_eq in Hcs. rewrite Hcs, Hk, andb_false_r.
    unfold dict_in. rewrite Hget, (endswith_guard _ Hacc).
    intros [= <-]. cbn [sections current_section]. split; [reflexivity|].
    now rewrite dict_get_set_same.
  - destruct (startswith (lit "-") line
              && String.eqb (current_section st) "improvements")%bool.
    + destruct (truthy (improvement_point st)).
      * unfold dict_append.
        destruct (dict_get (sections st) "improvements") as [[s|l]|];
          try discriminate.
        cbn [bind]. intros [= <-]. cbn [sections current_section].
        split; [reflexivity|].
        rewrite dict_get_set_other; [exact Hget|].
        now rewrite String.eqb_sym.
      * cbn [bind]. now intros [= <-].
    + destruct (String.eqb (current_section st) "improvements").
      * destruct (truthy (improvement_point st)); now intros [= <-].
      * destruct (dict_in (current_section st) (sections st));
          [|now intros [= <-]].
        destruct (dict_get (sections st) (current_section st))
          as [[a|?]|]; try now intros [= <-].
        intros [= <-]. cbn [sections current_section].
        split; [reflexivity|]. now rewrite dict_get_set_other.
Qed.

Lemma parse_lines_field (lines : list str) (st st' : pstate) (k : string)
  (acc : str) :
  String.eqb k "improvements" = false ->
  dict_get (sections st) k = Some (VStr acc) ->
  trimmed_end acc ->
  parse_lines st lines = Ok st' ->
  dict_get (sections st') k
  = Some (VStr (fold_left accumulate
                  (lines_of k (current_section st) lines) acc)).
Proof.
  intros Hk. revert st acc.
  induction lines as [|l lines IH]; intros st acc Hget Hacc.
  - cbn. now intros [= <-].
  - cbn [parse_lines lines_of].
    destruct (parse_line st l) as [st1|e] eqn:E; [|discriminate].
    cbn [bind]. intros Hrun. rewrite fold_left_app.
    destruct (parse_line_split st l)
      as [(Ht & E1 & Hn)|[(Ht & Hh & E1)|(Ht & Hh & E1 & Hn)]];
      rewrite E1 in E.
    + injection E as <-. rewrite Ht, Hn. cbn [andb fold_left].
      now apply IH.
    + injection E as <-. rewrite Ht, Hh. cbn [andb negb fold_left].
      exact (IH (set_section st _) acc Hget Hacc Hrun).
    + rewrite Ht, Hh, Hn. cbn [andb negb].
      destruct (line_body_field st st1 (strip l) k acc Hk Hget Hacc E)
        as [Hcs Hget1].
      destruct (String.eqb (current_section st) k); cbn [fold_left].
      * rewrite <- Hcs. apply (IH _ _ Hget1); [|exact Hrun].
        unfold accumulate. apply trimmed_end_app;
          [exact Ht|apply strip_trimmed_end].
      * rewrite <- Hcs. now apply (IH _ _ Hget1).
Qed.

Lemma parsed_field_text (raw : str) (d : dict) (k : string) :
  String.eqb k "improvements" = false ->
  dict_get initial_sections k = Some (VStr []) ->
  _parse_documentation raw = Ok d ->
  dict_get d k = Some (VStr (field_text k raw)).
Proof.
  intros Hk Hget H. unfold _parse_documentation in H.
  destruct (parse_lines initial_state (split NL raw)) as [st|e] eqn:E;
    [|discriminate].
  cbn [bind] in H.
  pose proof (parse_lines_field _ initial_state st k [] Hk Hget
                (or_introl eq_refl) E) as Hf.
  rewrite fold_accumulate_nil in Hf by apply lines_of_truthy.
  destruct (truthy (improvement_point st)).
  - unfold dict_append in H.
    destruct (dict_get (sections st) "improvements") as [[s|l]|];
      try discriminate.
    cbn [bind] in H. injection H as <-.
    rewrite dict_get_set_other; [exact Hf|].
    now rewrite String.eqb_sym.
  - cbn [bind] in H. now injection H as <-.
Qed.

(** X13. What the parser returns, when it returns, field by field: each of
    [overview], [functions], [parameters] and [examples] is the join, by
    line feeds and in order, of the trimmed content lines read while that
    section was the current one, sections visited more than once included;
    [improvements] is empty. *)
Theorem parser_attributes_lines (raw : str) (d : dict) :
  _parse_documentation raw = Ok d ->
  d = [ ("overview", VStr (field_text "overview" raw));
        ("functions", VStr (field_text "functions" raw));
        ("parameters", VStr (field_text "parameters" raw));
        ("examples", VStr (field_text "examples" raw));
        ("improvements", VStr []) ]%string.
Proof.
  intros H.
  pose proof (parsed_field_text raw d "overview" eq_refl eq_refl H) as Ho.
  pose proof (parsed_field_text raw d "functions" eq_refl eq_refl H) as Hf.
  pose proof (parsed_field_text raw d "parameters" eq_refl eq_refl H) as Hp.
  pose proof (parsed_field_text raw d "examples" eq_refl eq_refl H) as He.
  destruct (parsed_fields raw d H) as (o & f & p & e & -> & _).
  change (dict_get _ "overview") with (Some (VStr o)) in Ho.
  change (dict_get _ "functions") with (Some (VStr f)) in Hf.
  change (dict_get _ "parameters") with (Some (VStr p)) in Hp.
  change (dict_get _ "examples") with (Some (VStr e)) in He.
  injection Ho as ->. injection Hf as ->. injection Hp as ->.
  injection He as ->. reflexivity.
Qed.

Lemma parser_attributes_lines_witness :
  [ ("overview", VStr (lit "Does X.\nAlso W."));
    ("functions", VStr (lit "foo() does Y."));
    ("parameters", VStr []);
    ("examples", VStr []);
    ("improvements", VStr []) ]%string
  = [ ("overview",
       VStr (field_text "overview"
               (lit "Does X.\n2. Detailed Function Documentation:\nfoo() does Y.\n1. Brief Overview:\nAlso W.\nImprovements:\nNone.")));
      ("functions",
       VStr (field_text "functions"
               (lit "Does X.\n2. Detailed Function Documentation:\nfoo() does Y.\n1. Brief Overview:\nAlso W.\nImprovements:\nNone.")));
      ("parameters",
       VStr (field_text "parameters"
               (lit "Does X.\n2. Detailed Function Documentation:\nfoo() does Y.\n1. Brief Overview:\nAlso W.\nImprovements:\nNone.")));
      ("examples",
       VStr (field_text "examples"
               (lit "Does X.\n2. Detailed Function Documentation:\nfoo() does Y.\n1. Brief Overview:\nAlso W.\nImprovements:\nNone.")));
      ("improvements", VStr []) ]%string.
Proof.
  apply (parser_attributes_lines
           (lit "Does X.\n2. Detailed Function Documentation:\nfoo() does Y.\n1. Brief Overview:\nAlso W.\nImprovements:\nNone.")).
  vm_compute. reflexivity.
Defined.

End Attribution.

(** ** Trimming, by what it leaves *)

Section TrimmingMeaning.

Lemma forallb_rev {A} (f : A -> bool) (l : list A) :
  forallb f (rev l) = forallb f l.
Proof.
  induction l as [|x l IH]; [reflexivity|].
  cbn [rev]. rewrite forallb_app, IH. cbn [forallb].
  rewrite andb_true_r. apply andb_comm.
Qed.

Lemma lstrip_split (s : str) :
  exists pre, s = pre ++ lstrip s /\ forallb isspace pre = true.
Proof.
  induction s as [|c s (pre & E & Hpre)].
  - now exists [].
  - cbn [lstrip]. destruct (isspace c) eqn:Ec.
    + exists (c :: pre). cbn [app forallb]. rewrite Ec, Hpre.
      split; [now rewrite <- E|reflexivity].
    + now exists [].
Qed.

Lemma rstrip_split (s : str) :
  exists post, s = rstrip s ++ post /\ forallb isspace post = true.
Proof.
  destruct (lstrip_split (rev s)) as (pre & E & Hpre).
  exists (rev pre). split; [|now rewrite forallb_rev].
  unfold rstrip. rewrite <- rev_app_distr, <- E. now rewrite rev_involutive.
Qed.

Lemma strip_surrounded (text : str) : surrounded text (strip text).
Proof.
  destruct (lstrip_split text) as (pre & E1 & Hpre).
  destruct (rstrip_split (lstrip text)) as (post & E2 & Hpost).
  exists pre, post. repeat split; try assumption.
  unfold strip. now rewrite <- E2.
Qed.

Lemma strip_no_outer_space (text : str) : no_outer_space (strip text).
Proof.
  destruct (strip_shape text) as [E|(c & t & _ & Hc & E)]; [now left|].
  right. split; [now exists c, (rstrip t)|].
  destruct (strip_trimmed_end text) as [E'|(r & d & E' & Hd)].
  - rewrite E' in E. discriminate E.
  - now exists r, d.
Qed.

Lemma lstrip_spaces (pre x : str) :
  forallb isspace pre = true -> lstrip (pre ++ x) = lstrip x.
Proof.
  induction pre as [|c pre IH]; [reflexivity|].
  cbn [forallb app lstrip]. intros H. apply andb_prop in H as [Hc Hpre].
  rewrite Hc. now apply IH.
Qed.

Lemma rstrip_spaces (x post : str) :
  forallb isspace post = true -> rstrip (x ++ post) = rstrip x.
Proof.
  intros H. unfold rstrip. rewrite rev_app_distr, lstrip_spaces;
    [reflexivity|]. now rewrite forallb_rev.
Qed.

(** The trimmed text is the only one with these two properties. *)
Lemma strip_unique (text r : str) :
  surrounded text r -> no_outer_space r -> strip text = r.
Proof.
  intros (pre & post & -> & Hpre & Hpost) Hr. unfold strip.
  rewrite (lstrip_spaces _ _ Hpre).
  destruct Hr as [->|[(c & m & E1 & Hc) (m' & d & E2 & Hd)]].
  - cbn [app]. now rewrite (proj2 (lstrip_nil post) Hpost).
  - assert (El : lstrip (r ++ post) = r ++ post).
    { rewrite E1. cbn [app]. now apply lstrip_keeps. }
    rewrite El, (rstrip_spaces _ _ Hpost), E2. now apply rstrip_snoc.
Qed.

Lemma failure_text_fixed (m : str) :
  truthy m = true -> trimmed_end m ->
  strip (lit "Failed to generate docstring: " ++ m)
  = lit "Failed to generate docstring: " ++ m.
Proof.
  intros Ht [->|(r & d & -> & Hd)]; [discriminate|].
  assert (E : lit "Failed to generate docstring: "
              = 70%N :: tl (lit "Failed to generate docstring: "))
    by (vm_compute; reflexivity).
  rewrite E. cbn [app]. rewrite app_assoc. now apply strip_fixed.
Qed.

Lemma failure_prefix (x : str) :
  startswith (lit "Failed to generate")
             (lit "Failed to generate docstring: " ++ x) = true.
Proof.
  assert (E : lit "Failed to generate docstring: "
              = lit "Failed to generate" ++ lit " docstring: ")
    by (vm_compute; reflexivity).
  rewrite E, <- app_assoc. apply startswith_app.
Qed.

(** C10. [generate_docstring] handles every outcome of the model call and
    hands back a string. For a reply with a text, the string is that text
    without the whitespace at its two ends: what is cut off at either end is
    whitespace only, the string neither starts nor ends with whitespace,
    and it is the only string of which both hold. For a call that raised,
    the string is [Failed to generate docstring: ] followed by the message
    of the exception, and for a reply without text it is that prefix with
    the message of the [AttributeError]; in both cases the test of the
    caller, that the string starts with [Failed to generate], holds. The
    failure is in band: a model that replies with the text of a failure
    string gives the same value as the model call that raised. *)
Theorem generate_docstring_in_band (create : request -> outcome)
  (code style : str) (response : outcome) :
  create (docstring_request code style) = response ->
  let r := value_of (generate_docstring create code style) in
  match response with
  | Completion (Some text) =>
      surrounded text r /\ no_outer_space r
      /\ (forall r', surrounded text r' -> no_outer_space r' -> r' = r)
  | Completion None =>
      r = lit "Failed to generate docstring: 'NoneType' object has no attribute 'strip'"
      /\ startswith (lit "Failed to generate") r = true
  | Fails e =>
      r = lit "Failed to generate docstring: " ++ str_of_exn e
      /\ startswith (lit "Failed to generate docstring: ") r = true
      /\ startswith (lit "Failed to generate") r = true
  end
  /\ (forall e,
        truthy (str_of_exn e) = true -> trimmed_end (str_of_exn e) ->
        value_of (generate_docstring
                    (fun _ => Completion
                                (Some (lit "Failed to generate docstring: "
                                       ++ str_of_exn e)))
                    code style)
        = value_of (generate_docstring (fun _ => Fails e) code style)).
Proof.
  intros H. cbv zeta.
  assert (Hv : forall c : request -> outcome,
             value_of (generate_docstring c code style)
             = match c (docstring_request code style) with
               | Fails e =>
                   lit "Failed to generate docstring: " ++ str_of_exn e
               | Completion None =>
                   lit "Failed to generate docstring: "
                   ++ lit "'NoneType' object has no attribute 'strip'"
               | Completion (Some text) => strip text
               end) by reflexivity.
  split.
  - rewrite Hv, H. destruct response as [[text|]|e].
    + split; [apply strip_surrounded|].
      split; [apply strip_no_outer_space|].
      intros r' Hs Hn. symmetry. now apply strip_unique.
    + split; [vm_compute; reflexivity|apply failure_prefix].
    + split; [reflexivity|].
      split; [apply startswith_app|apply failure_prefix].
  - intros e Ht He. rewrite !Hv. now apply failure_text_fixed.
Qed.

Lemma generate_docstring_in_band_witness :
  surrounded (lit "\n  Return the sum of a and b.  \n\n")
             (lit "Return the sum of a and b.")
  /\ no_outer_space (lit "Return the sum of a and b.")
  /\ (forall r',
        surrounded (lit "\n  Return the sum of a and b.  \n\n") r' ->
        no_outer_space r' -> r' = lit "Return the sum of a and b.").
Proof.
  exact (proj1 (generate_docstring_in_band
                  (fun _ => Completion
                              (Some (lit "\n  Return the sum of a and b.  \n\n")))
                  (lit "def add(a, b): return a + b") (lit "google")
                  (Completion
                     (Some (lit "\n  Return the sum of a and b.  \n\n")))
                  eq_refl)).
Defined.

End TrimmingMeaning.

(** ** Saving a parsed document *)

Section Written.

Variable encodable : char -> bool.
Variable encode_error : str -> exn.

(** The encoding has the ASCII characters. *)
Hypothesis ascii_encodable : forall c, (c < 128)%N -> encodable c = true.

Lemma is_ascii_encodable (s : str) :
  is_ascii s = true -> forallb encodable s = true.
Proof.
  unfold is_ascii. intros H. apply forallb_forall. intros c Hc.
  apply ascii_encodable, N.ltb_lt.
  exact (proj1 (forallb_forall _ _) H c Hc).
Qed.

Lemma fwrite_ok (w s : str) :
  forallb encodable s = true ->
  fwrite encodable encode_error w s = Ok (w ++ s).
Proof. intros H. unfold fwrite. now rewrite H. Qed.

Lemma fwrite_title (w s : str) :
  is_ascii s = true -> fwrite encodable encode_error w s = Ok (w ++ s).
Proof. intros H. now apply fwrite_ok, is_ascii_encodable. Qed.

Lemma fwrite_fails (w s : str) :
  forallb encodable s = false ->
  fwrite encodable encode_error w s = Raise (encode_error s).
Proof. intros H. unfold fwrite. now rewrite H. Qed.

Ltac title := rewrite fwrite_title by (vm_compute; reflexivity);
              rewrite bind_ok.

(** X6. The [txt] branch of [save_documentation] on a document the parser
    returned, the encoding of the file having at least the ASCII
    characters: reading the fields raises neither [KeyError] nor
    [AttributeError]; the writes put the code, the four free-text fields as
    they are under their titles, nothing under [Improvements:], and the
    docstring; and the first of the code text, the four fields and the
    docstring to hold a character the encoding lacks makes its write raise
    the encoding error, the only way this branch fails here. *)
Theorem saved_text_of_parsed_document (raw : str) (d : dict)
  (docstring code : str) :
  _parse_documentation raw = Ok d ->
  exists o f p e,
    d = [ ("overview", VStr o);
          ("functions", VStr f);
          ("parameters", VStr p);
          ("examples", VStr e);
          ("improvements", VStr []) ]%string
    /\ save_documentation_write encodable encode_error d docstring code
       = match find (fun s => negb (forallb encodable s))
                    [code; o; f; p; e; docstring] with
         | Some s => Raise (encode_error s)
         | None =>
             Ok (lit "=== Original Code ===\n\n" ++ code
                 ++ lit "\n\n=== Documentation ===\n\n"
                 ++ lit "Overview:\n" ++ o
                 ++ lit "\n\nFunctions:\n" ++ f
                 ++ lit "\n\nParameters:\n" ++ p
                 ++ lit "\n\nExamples:\n" ++ e
                 ++ lit "\n\nImprovements:\n"
                 ++ lit "\n\n=== Generated Docstring ===\n\n" ++ docstring)
         end.
Proof.
  intros H.
  destruct (parsed_fields raw d H) as (o & f & p & e & -> & Jo & Jf & Jp & Je).
  exists o, f, p, e. split; [reflexivity|].
  destruct (joined_text_clean _ Jo) as [So _].
  destruct (joined_text_clean _ Jf) as [Sf _].
  destruct (joined_text_clean _ Jp) as [Sp _].
  destruct (joined_text_clean _ Je) as [Se _].
  unfold save_documentation_write. cbn [find].
  title.
  destruct (forallb encodable code) eqn:Ec; cbn [negb];
    [rewrite (fwrite_ok _ code Ec), bind_ok
    |now rewrite (fwrite_fails _ code Ec)].
  title. title.
  rewrite (field_strip_get _ "overview" o); [|reflexivity|exact So].
  rewrite bind_ok.
  destruct (forallb encodable o) eqn:Eo; cbn [negb];
    [rewrite (fwrite_ok _ o Eo), bind_ok
    |now rewrite (fwrite_fails _ o Eo)].
  title.
  rewrite (field_strip_get _ "functions" f); [|reflexivity|exact Sf].
  rewrite bind_ok.
  destruct (forallb encodable f) eqn:Ef; cbn [negb];
    [rewrite (fwrite_ok _ f Ef), bind_ok
    |now rewrite (fwrite_fails _ f Ef)].
  title.
  rewrite (field_strip_get _ "parameters" p); [|reflexivity|exact Sp].
  rewrite bind_ok.
  destruct (forallb encodable p) eqn:Ep; cbn [negb];
    [rewrite (fwrite_ok _ p Ep), bind_ok
    |now rewrite (fwrite_fails _ p Ep)].
  title.
  rewrite (field_strip_get _ "examples" e); [|reflexivity|exact Se].
  rewrite bind_ok.
  destruct (forallb encodable e) eqn:Ee; cbn [negb];
    [rewrite (fwrite_ok _ e Ee), bind_ok
    |now rewrite (fwrite_fails _ e Ee)].
  title.
  match goal with
  | |- context [dict_get ?d "improvements"] =>
      assert (Hi : dict_get d "improvements" = Some (VStr []))
        by reflexivity;
      rewrite Hi
  end.
  rewrite strip_empty, (fwrite_ok _ []) by reflexivity.
  rewrite bind_ok. title.
  destruct (forallb encodable docstring) eqn:Ed; cbn [negb];
    [rewrite (fwrite_ok _ docstring Ed)
    |now rewrite (fwrite_fails _ docstring Ed)].
  rewrite app_nil_r, app_nil_l, <- !app_assoc. reflexivity.
Qed.

End Written.

Lemma saved_text_of_parsed_document_witness :
  exists o f p e,
    overview_only (lit "Does X.")
    = [ ("overview", VStr o);
        ("functions", VStr f);
        ("parameters", VStr p);
        ("examples", VStr e);
        ("improvements", VStr []) ]%string
    /\ save_documentation_write (fun c => (c <? 128)%N)
         (fun _ => ValueError (lit "'ascii' codec can't encode characters"))
         (overview_only (lit "Does X."))
         (lit "Return X.") (lit "def f(): pass")
       = match find (fun s => negb (forallb (fun c => (c <? 128)%N) s))
                    [lit "def f(): pass"; o; f; p; e; lit "Return X."] with
         | Some s =>
             Raise (ValueError (lit "'ascii' codec can't encode characters"))
         | None =>
             Ok (lit "=== Original Code ===\n\n" ++ lit "def f(): pass"
                 ++ lit "\n\n=== Documentation ===\n\n"
                 ++ lit "Overview:\n" ++ o
                 ++ lit "\n\nFunctions:\n" ++ f
                 ++ lit "\n\nParameters:\n" ++ p
                 ++ lit "\n\nExamples:\n" ++ e
                 ++ lit "\n\nImprovements:\n"
                 ++ lit "\n\n=== Generated Docstring ===\n\n"
                 ++ lit "Return X.")
         end.
Proof.
  apply (saved_text_of_parsed_document (fun c => (c <? 128)%N)
           (fun _ => ValueError (lit "'ascii' codec can't encode characters"))
           (fun c Hc => proj2 (N.ltb_lt c 128) Hc)
           (lit "  Does X.\n")).
  vm_compute. reflexivity.
Defined.
